(** * Natours: the authentication controller

    A shallow embedding of [controllers/authController.js] and of its earlier
    revision ([Part000] below): signup, login, the access guard [protect],
    the role gate [restrictTo] and the password-reset flow.

    The handlers are asynchronous Express middlewares.  Each one is embedded
    as a computation over an explicit [world] (the users collection, the
    clock, the random source and a journal of the writes and mails it
    performed) that may throw; [catchAsync] turns a thrown error into a call
    of [next].  The collaborators the controller only consumes (jsonwebtoken,
    crypto, bcrypt, the mailer, the Mongoose schema) are interfaces. *)

From Stdlib Require Import String Ascii List ZArith Bool Lia.
Import ListNotations.

#[local] Open Scope string_scope.
#[local] Open Scope Z_scope.

(** ** JavaScript values the handlers look at *)

(** A request field is [undefined] or a string; [!x] holds for [undefined]
    and for the empty string. *)
Definition falsy (x : option string) : bool :=
  match x with
  | None => true
  | Some EmptyString => true
  | Some (String _ _) => false
  end.

(** What a template literal prints for a field. *)
Definition interpolate (x : option string) : string :=
  match x with
  | None => "undefined"
  | Some s => s
  end.

(** [s.split(sep)] for a one-character separator: never an empty array. *)
Fixpoint split (sep : ascii) (s : string) : list string :=
  match s with
  | EmptyString => [EmptyString]
  | String c rest =>
      if Ascii.eqb c sep then EmptyString :: split sep rest
      else match split sep rest with
           | [] => [String c EmptyString]
           | piece :: pieces => String c piece :: pieces
           end
  end.

(** [s.startsWith(p)] *)
Definition startsWith (s p : string) : bool := String.prefix p s.

(** ** Data model *)

(** A user document.  [password] is absent on a document that was read with
    the schema's default projection and present after [select("+password")];
    [passwordModified] is the change tracking the save middleware asks
    ([isModified("password")]). *)
Record user : Type := mkUser {
  _id : string;
  name : string;
  email : string;
  role : string;
  password : option string;
  passwordConfirm : option string;
  passwordChangedAt : option Z;
  passwordResetToken : option string;
  passwordResetExpires : option Z;
  passwordModified : bool
}.

(** [user.password = v] *)
Definition assign_password (v : option string) (u : user) : user :=
  mkUser (_id u) (name u) (email u) (role u) v (passwordConfirm u)
         (passwordChangedAt u) (passwordResetToken u) (passwordResetExpires u)
         true.

(** [user.passwordConfirm = v] *)
Definition assign_passwordConfirm (v : option string) (u : user) : user :=
  mkUser (_id u) (name u) (email u) (role u) (password u) v
         (passwordChangedAt u) (passwordResetToken u) (passwordResetExpires u)
         (passwordModified u).

(** [user.passwordResetToken = v] *)
Definition assign_passwordResetToken (v : option string) (u : user) : user :=
  mkUser (_id u) (name u) (email u) (role u) (password u) (passwordConfirm u)
         (passwordChangedAt u) v (passwordResetExpires u) (passwordModified u).

(** [user.passwordResetExpires = v] *)
Definition assign_passwordResetExpires (v : option Z) (u : user) : user :=
  mkUser (_id u) (name u) (email u) (role u) (password u) (passwordConfirm u)
         (passwordChangedAt u) (passwordResetToken u) v (passwordModified u).

(** An error object raised by a collaborator (the signer, the store, the
    mailer, the runtime): a name and a message, no status code. *)
Record exn : Type := mkExn { exn_name : string; exn_message : string }.

(** Modelled from the spec: utils/appError.js is not part of the sources; an
    operational error is "a structured error with a status code and message".
    [Uncaught] is a collaborator's error on its way to the central error
    responder, as it was thrown. *)
Inductive error : Type :=
| AppError (message : string) (statusCode : Z)
| Uncaught (e : exn).

Definition statusCode_of (e : error) : option Z :=
  match e with
  | AppError _ code => Some code
  | Uncaught _ => None
  end.

(** The payload [jwt.verify] decodes. *)
Record decoded : Type := mkDecoded { id : string; iat : Z }.

(** The options object given to [sendEmail]. *)
Record mail : Type := mkMail {
  mail_email : string;
  mail_subject : string;
  mail_message : string
}.

(** [req.body], as far as the handlers read it. *)
Record body : Type := mkBody {
  body_name : option string;
  body_email : option string;
  body_password : option string;
  body_passwordConfirm : option string;
  body_role : option string;
  body_passwordCurrent : option string
}.

Record request : Type := mkRequest {
  headers_authorization : option string;
  req_body : body;
  params_token : string;
  protocol : string;
  host : string;
  req_user : option user
}.

(** [req.user = u] *)
Definition attach_user (u : user) (req : request) : request :=
  mkRequest (headers_authorization req) (req_body req) (params_token req)
            (protocol req) (host req) (Some u).

(** The JSON bodies the handlers send. *)
Inductive json : Type :=
| TokenAndUser (status token : string) (data_user : user)
| TokenOnly (status token : string)
| StatusMessage (status message : string).

(** What a middleware did with the request: [res.status(c).json(b)], or
    [next()] / [next(err)]. *)
Inductive outcome : Type :=
| Respond (status : Z) (payload : json)
| Next (err : option error).

(** ** The world a handler runs in *)

Inductive event : Type :=
| Saved (validateBeforeSave : bool) (doc : user)
| Created (doc : user)
| Mailed (m : mail).

Record world : Type := mkWorld {
  users : list user;      (* the users collection, in insertion order *)
  clock : Z;              (* Date.now() *)
  entropy : string;       (* what crypto.randomBytes(32).toString("hex") yields *)
  journal : list event    (* writes and mails, oldest first *)
}.

Definition record_event (e : event) (us : list user) (w : world) : world :=
  mkWorld us (clock w) (entropy w) (journal w ++ [e]).

(** An asynchronous computation: it reads and writes the world and either
    returns or throws; what it did before throwing stays done. *)
Definition M (A : Type) : Type := world -> (exn + A) * world.

Definition ret {A} (a : A) : M A := fun w => (inr a, w).

Definition throw {A} (e : exn) : M A := fun w => (inl e, w).

Definition bind {A B} (c : M A) (k : A -> M B) : M B :=
  fun w =>
    match c w with
    | (inr a, w') => k a w'
    | (inl e, w') => (inl e, w')
    end.

(** [try { c } catch (error) { h }] *)
Definition try_catch {A} (c : M A) (h : exn -> M A) : M A :=
  fun w =>
    match c w with
    | (inr a, w') => (inr a, w')
    | (inl e, w') => h e w'
    end.

Definition now : M Z := fun w => (inr (clock w), w).

Declare Scope async_scope.
Delimit Scope async_scope with async.
Notation "x <- c ;; k" := (bind c (fun x => k))
  (at level 61, c at next level, right associativity) : async_scope.
Notation "' pat <- c ;; k" := (bind c (fun x => match x with pat => k end))
  (at level 61, pat pattern, c at next level, right associativity) : async_scope.
#[local] Open Scope async_scope.

(** A handler gets the request and hands back the request (it may have
    attached the user) and what it did with it. *)
Definition handler : Type := request -> M (request * outcome).

(** Modelled from the spec: utils/catchAsync.js is not part of the sources;
    "unexpected exceptions from collaborators propagate uncaught to the
    central responder": a rejected handler calls [next] with the error. *)
Definition catchAsync (fn : handler) (req : request) (w : world)
  : (request * outcome) * world :=
  match fn req w with
  | (inr r, w') => (r, w')
  | (inl e, w') => ((req, Next (Some (Uncaught e))), w')
  end.

(** ** Collaborators *)

(** [process.env] *)
Class Env : Type := {
  JWT_SECRET : string;
  JWT_EXPIRES_IN : Z
}.

(** jsonwebtoken: [jwt.sign({ id }, secret, { expiresIn })] and
    [jwt.verify(token, secret)]; both read the clock, which is passed last. *)
Class Signer : Type := {
  jwt_sign : string -> string -> Z -> Z -> string;
  jwt_verify : string -> string -> Z -> exn + decoded
}.

(** crypto's sha256 hex digest and the bcrypt calls of the user model. *)
Class Hasher : Type := {
  sha256_hex : string -> string;
  bcrypt_hash : string -> string;
  bcrypt_compare : string -> string -> bool
}.

(** utils/email.js: [None] when the mail was handed over, the error
    otherwise. *)
Class Mailer : Type := {
  sendEmail : mail -> option exn
}.

(** The Mongoose schema: its validators and the identifier of a new
    document. *)
Class Schema : Type := {
  validators : user -> option exn;
  new_id : list user -> string
}.

(** ** The user model *)

Module User.
Section Model.
Context {hasher : Hasher} {schema : Schema}.

Definition same_value (a b : option string) : bool :=
  match a, b with
  | None, None => true
  | Some x, Some y => String.eqb x y
  | _, _ => false
  end.

(** Modelled from the spec: the document's change tracking (Mongoose, with
    the user model, is not part of the sources).  [doc.password = v]: the
    path counts as modified when the value changes. *)
Definition set_password (v : option string) (u : user) : user :=
  if same_value v (password u) then u else assign_password v u.

(** Modelled from the spec: models/userModel.js is not part of the
    sources.  The password hash is "never serialized outward": a query
    leaves it out unless the caller selects it, as [login] and
    [updatePassword] do with [select("+password")]. *)
Definition project (u : user) : user :=
  mkUser (_id u) (name u) (email u) (role u) None (passwordConfirm u)
         (passwordChangedAt u) (passwordResetToken u)
         (passwordResetExpires u) false.

(** [{ email }] *)
Definition has_email (e : option string) (u : user) : bool :=
  match e with
  | Some s => String.eqb (email u) s
  | None => false
  end.

Definition has_id (i : string) (u : user) : bool := String.eqb (_id u) i.

(** [{ passwordResetToken: hashed, passwordResetExpires: { $gt: t } }] *)
Definition reset_matches (hashed : string) (t : Z) (u : user) : bool :=
  match passwordResetToken u, passwordResetExpires u with
  | Some h, Some expires => String.eqb h hashed && (t <? expires)
  | _, _ => false
  end.

(** Modelled from the spec: the User Store's [findByEmail] / [findById];
    the first document that satisfies the filter, in the default
    projection or with the password selected. *)
Definition findOne (selectPassword : bool) (filter : user -> bool)
  : M (option user) :=
  fun w =>
    let found := find filter (users w) in
    (inr (if selectPassword then found else option_map project found), w).

Definition findById (i : string) : M (option user) :=
  findOne false (has_id i).

(** Modelled from the spec: the save middleware of the user model
    ("password-related fields mutated on reset/update"): a password a
    handler assigned is replaced by its hash, the confirmation is dropped
    and the password-changed timestamp is set. *)
Definition presave (t : Z) (d : user) : user :=
  if passwordModified d then
    mkUser (_id d) (name d) (email d) (role d)
           (option_map bcrypt_hash (password d)) None (Some t)
           (passwordResetToken d) (passwordResetExpires d) false
  else d.

(** Modelled from the spec: what the User Store holds after a document was
    written; a document read without its password leaves the stored one in
    place. *)
Definition merge (stored d : user) : user :=
  match password d with
  | Some _ => d
  | None =>
      mkUser (_id d) (name d) (email d) (role d) (password stored)
             (passwordConfirm d) (passwordChangedAt d)
             (passwordResetToken d) (passwordResetExpires d)
             (passwordModified d)
  end.

(** Modelled from the spec: the User Store's write of a document, by its
    identifier. *)
Definition write (d : user) (us : list user) : list user :=
  map (fun stored => if has_id (_id d) stored then merge stored d else stored)
      us.

(** Modelled from the spec: the User Store's "save with optional
    validation bypass"; [doc.save()] validates, [doc.save({
    validateBeforeSave: false })] does not.  A failed validation throws
    and writes nothing. *)
Definition save (validateBeforeSave : bool) (d : user) : M user :=
  fun w =>
    match (if validateBeforeSave then validators d else None) with
    | Some e => (inl e, w)
    | None =>
        let d' := presave (clock w) d in
        (inr d', record_event (Saved validateBeforeSave d')
                              (write d' (users w)) w)
    end.

Definition validation_error (msg : string) : exn :=
  mkExn "ValidationError" msg.

(** Modelled from the spec: the User Store's [create] ("create user record
    from {name, email, password, passwordConfirm, role}", 400 on a
    validation failure); the role defaults to "user", the reset fields
    start absent. *)
Definition create (n e p pc r : option string) : M user :=
  fun w =>
    match n, e with
    | Some n', Some e' =>
        let d := mkUser (new_id (users w)) n' e'
                        (match r with Some r' => r' | None => "user" end)
                        p pc None None None true in
        match validators d with
        | Some err => (inl err, w)
        | None =>
            let d' := mkUser (_id d) (name d) (email d) (role d)
                             (option_map bcrypt_hash (password d)) None None
                             None None false in
            (inr d', record_event (Created d') (users w ++ [d']) w)
        end
    | _, _ => (inl (validation_error "User validation failed"), w)
    end.

(** Modelled from the spec: the Credential Verifier
    ([user.correctPassword(candidate, userPassword)]): the comparison is
    delegated to the hashing capability and a mismatch is [false], not an
    error; the hashing library refuses a missing argument. *)
Definition correctPassword (candidate userPassword : option string)
  : M bool :=
  match candidate, userPassword with
  | Some c, Some h => ret (bcrypt_compare c h)
  | _, _ => throw (mkExn "Error" "data and hash arguments required")
  end.

(** Ten minutes, in the clock's milliseconds. *)
Definition reset_validity : Z := 10 * 60 * 1000.

(** Modelled from the spec: the Reset-Token Manager's [generate]
    ([user.createPasswordResetToken()]): the plain token is random and
    goes to the caller only; its one-way hash and the expiry are put on
    the document. *)
Definition createPasswordResetToken (u : user) : M (string * user) :=
  fun w =>
    let resetToken := entropy w in
    let u1 := assign_passwordResetToken (Some (sha256_hex resetToken)) u in
    let u2 := assign_passwordResetExpires (Some (clock w + reset_validity)) u1 in
    (inr (resetToken, u2), w).

(** Modelled from the spec: the "changed password after" predicate of the
    user model: the password-changed timestamp is later than the token's
    issued-at time. *)
Definition changedPasswordAfter (u : user) (JWTTimestamp : Z) : bool :=
  match passwordChangedAt u with
  | Some changed => JWTTimestamp <? changed
  | None => false
  end.

End Model.
End User.

(** [await sendEmail(options)] *)
Definition deliver {mailer : Mailer} (m : mail) : M unit :=
  fun w =>
    let w' := record_event (Mailed m) (users w) w in
    match sendEmail m with
    | None => (inr tt, w')
    | Some e => (inl e, w')
    end.

Definition type_error (msg : string) : exn := mkExn "TypeError" msg.

(** The token a request presents: the second space-separated field of an
    Authorization header that starts with "Bearer ". *)
Definition bearer (authorization : option string) : option string :=
  match authorization with
  | Some h =>
      if negb (falsy (Some h)) && startsWith h "Bearer "
      then nth_error (split " "%char h) 1
      else None
  | None => None
  end.

(** ** The earlier revision of the controller *)

Module Part000.
Section Controller.
Context {env : Env} {signer : Signer} {hasher : Hasher} {schema : Schema}.

Definition signToken (i : string) : M string :=
  t <- now ;;
  ret (jwt_sign i JWT_SECRET JWT_EXPIRES_IN t).

Definition signup : handler := fun req =>
  let b := req_body req in
  newUser <- User.create (body_name b) (body_email b) (body_password b)
                         (body_passwordConfirm b) None ;;
  token <- signToken (_id newUser) ;;
  ret (req, Respond 201 (TokenAndUser "success" token newUser)).

Definition login : handler := fun req =>
  let b := req_body req in
  if falsy (body_email b) || falsy (body_password b) then
    ret (req, Next (Some (AppError "Please, provide email and password" 400)))
  else
    found <- User.findOne true (User.has_email (body_email b)) ;;
    match found with
    | None =>
        ret (req, Next (Some (AppError "Incorrect email or password" 401)))
    | Some u =>
        correct <- User.correctPassword (body_password b) (password u) ;;
        if negb correct then
          ret (req, Next (Some (AppError "Incorrect email or password" 401)))
        else
          token <- signToken (_id u) ;;
          ret (req, Respond 200 (TokenOnly "success" token))
    end.

Definition protect : handler := fun req =>
  (* 1. get token *)
  let token :=
    match headers_authorization req with
    | Some authorization =>
        if negb (falsy (Some authorization))
           && startsWith authorization "Bearer "
        then nth_error (split " "%char authorization) 1
        else None
    | None => None
    end in
  if falsy token then
    ret (req, Next (Some (AppError
           "You're not logged in. Please, log in to get access" 401)))
  else
    (* 2. verify the token, this throws if the token is not verified *)
    t <- now ;;
    match jwt_verify (interpolate token) JWT_SECRET t with
    | inl e => throw e
    | inr decoded =>
        (* 3. check if user exists *)
        freshUser <- User.findById (id decoded) ;;
        match freshUser with
        | None =>
            ret (req, Next (Some (AppError
                   "The user belonging to this token, does no longer exist"
                   401)))
        | Some freshUser =>
            (* 4. check if user changed password after token was issued *)
            if User.changedPasswordAfter freshUser (iat decoded) then
              ret (req, Next (Some (AppError
                     "User recently changed password. Please log in again"
                     401)))
            else
              (* grant access to protected route *)
              ret (attach_user freshUser req, Next None)
        end
    end.

End Controller.
End Part000.

(** ** The controller *)

Definition newline : string := String (ascii_of_nat 10) EmptyString.

Module AuthController.
Section Controller.
Context {env : Env} {signer : Signer} {hasher : Hasher} {mailer : Mailer}
        {schema : Schema}.

Definition signToken (i : string) : M string :=
  t <- now ;;
  ret (jwt_sign i JWT_SECRET JWT_EXPIRES_IN t).

Definition createSendToken (u : user) (statusCode : Z) : M outcome :=
  token <- signToken (_id u) ;;
  ret (Respond statusCode (TokenAndUser "success" token u)).

Definition signup : handler := fun req =>
  let b := req_body req in
  newUser <- User.create (body_name b) (body_email b) (body_password b)
                         (body_passwordConfirm b) (body_role b) ;;
  sent <- createSendToken newUser 201 ;;
  ret (req, sent).

Definition login : handler := fun req =>
  let b := req_body req in
  if falsy (body_email b) || falsy (body_password b) then
    ret (req, Next (Some (AppError "Please, provide email and password" 400)))
  else
    found <- User.findOne true (User.has_email (body_email b)) ;;
    match found with
    | None =>
        ret (req, Next (Some (AppError "Incorrect email or password" 401)))
    | Some u =>
        correct <- User.correctPassword (body_password b) (password u) ;;
        if negb correct then
          ret (req, Next (Some (AppError "Incorrect email or password" 401)))
        else
          sent <- createSendToken u 200 ;;
          ret (req, sent)
    end.

Definition protect : handler := fun req =>
  (* 1. get token *)
  let token :=
    match headers_authorization req with
    | Some authorization =>
        if negb (falsy (Some authorization))
           && startsWith authorization "Bearer "
        then nth_error (split " "%char authorization) 1
        else None
    | None => None
    end in
  if falsy token then
    ret (req, Next (Some (AppError
           "You're not logged in. Please, log in to get access" 401)))
  else
    (* 2. verify the token, this throws if the token is not verified *)
    t <- now ;;
    match jwt_verify (interpolate token) JWT_SECRET t with
    | inl e => throw e
    | inr decoded =>
        (* 3. check if user exists *)
        freshUser <- User.findById (id decoded) ;;
        match freshUser with
        | None =>
            ret (req, Next (Some (AppError
                   "The user belonging to this token, does no longer exist"
                   401)))
        | Some freshUser =>
            (* 4. check if user changed password after token was issued *)
            if User.changedPasswordAfter freshUser (iat decoded) then
              ret (req, Next (Some (AppError
                     "User recently changed password. Please log in again"
                     401)))
            else
              (* grant access to protected route *)
              ret (attach_user freshUser req, Next None)
        end
    end.

(** [restrictTo(...roles)] is not wrapped in [catchAsync]: reading the
    role of a request without a user throws synchronously. *)
Definition restrictTo (roles : list string) (req : request)
  : exn + (request * outcome) :=
  match req_user req with
  | None => inl (type_error "Cannot read property 'role' of undefined")
  | Some u =>
      if negb (existsb (String.eqb (role u)) roles) then
        inr (req, Next (Some (AppError
               "You do not have permission to perform this action" 403)))
      else inr (req, Next None)
  end.

Definition resetURL_of (req : request) (resetToken : string) : string :=
  protocol req ++ "://" ++ host req ++ "/api/v1/users/resetPassword/"
    ++ resetToken.

Definition reset_message (resetURL : string) : string :=
  "Forgot your password?" ++ newline
    ++ "Submit a new PATCH request with your new password and passwordConfirm to: "
    ++ resetURL ++ newline
    ++ "If you didn't forget your password, please ignore this email.".

Definition forgotPassword : handler := fun req =>
  let b := req_body req in
  (* 1. Get user based on posted email *)
  found <- User.findOne false (User.has_email (body_email b)) ;;
  match found with
  | None =>
      ret (req, Next (Some (AppError
             ("There's no user with " ++ interpolate (body_email b)
                ++ " address") 404)))
  | Some u =>
      (* 2. Generate the random token *)
      ' (resetToken, u) <- User.createPasswordResetToken u ;;
      u <- User.save false u ;;
      (* 3. send it to user's email *)
      let message := reset_message (resetURL_of req resetToken) in
      try_catch
        (_ <- deliver (mkMail (email u)
                 "Your password reset token (valid for 10 minutes)"
                 message) ;;
         ret (req, Respond 200 (StatusMessage "success" "Token sent to email")))
        (fun _ =>
           let u := assign_passwordResetToken None u in
           let u := assign_passwordResetExpires None u in
           _ <- User.save false u ;;
           ret (req, Next (Some (AppError
                  "There was an error sending the email. Try again later."
                  500))))
  end.

Definition resetPassword : handler := fun req =>
  let b := req_body req in
  (* 1. get user based on token *)
  let hashedToken := sha256_hex (params_token req) in
  t <- now ;;
  found <- User.findOne false (User.reset_matches hashedToken t) ;;
  (* 2. if token has not expired, and there is user, set the new password *)
  match found with
  | None =>
      ret (req, Next (Some (AppError "Token is invalid or has expired" 400)))
  | Some u =>
      let u := User.set_password (body_password b) u in
      let u := assign_passwordConfirm (body_passwordConfirm b) u in
      let u := assign_passwordResetToken None u in
      let u := assign_passwordResetExpires None u in
      u <- User.save true u ;;
      (* 4. log the user in, send JWT *)
      sent <- createSendToken u 200 ;;
      ret (req, sent)
  end.

Definition updatePassword : handler := fun req =>
  let b := req_body req in
  match req_user req with
  | None => throw (type_error "Cannot read property '_id' of undefined")
  | Some current =>
      (* 1. get user from collection *)
      found <- User.findOne true (User.has_id (_id current)) ;;
      match found with
      | None =>
          throw (type_error "Cannot read property 'correctPassword' of null")
      | Some u =>
          (* 2. check if the posted password is correct *)
          correct <- User.correctPassword (body_passwordCurrent b)
                                          (password u) ;;
          if negb correct then
            ret (req, Next (Some (AppError "You current password is wrong"
                                           401)))
          else
            (* 3. if so, update the password *)
            let u := User.set_password (body_password b) u in
            let u := assign_passwordConfirm (body_passwordConfirm b) u in
            u <- User.save true u ;;
            (* 4. log user in, send JWT *)
            sent <- createSendToken u 200 ;;
            ret (req, sent)
      end
  end.

End Controller.
End AuthController.

(** ** The token codec *)

Module TokenCodec.

Record claims : Type := mkClaims {
  userId : string;
  issuedAt : Z;
  expiresAt : Z
}.

Record signed : Type := mkSigned {
  signed_claims : claims;
  signature : string
}.

(** The keyed signature and the serialization that make a token an opaque
    string. *)
Class Wire : Type := {
  mac : string -> claims -> string;
  encode : signed -> string;
  decode : string -> option signed
}.

(** Reading back what was written gives it back. *)
Definition lawful (wire : Wire) : Prop :=
  forall s, decode (encode s) = Some s.

Definition InvalidToken (msg : string) : exn := mkExn "InvalidToken" msg.

Section Codec.
Context {wire : Wire}.

(** Modelled from the spec: the Signer (jsonwebtoken is a dependency, not
    part of the sources).  [issue(userId) -> token] "produces a signed
    token embedding the user identifier and issuance time, with a
    configured expiry duration". *)
Definition issue (i secret : string) (expiresIn t : Z) : string :=
  let c := mkClaims i t (t + expiresIn) in
  encode (mkSigned c (mac secret c)).

(** Modelled from the spec: [verify(token) -> {userId, issuedAt} | fails
    with InvalidToken]: "fails if signature invalid or token expired";
    the token is valid for a fixed duration from issuance. *)
Definition verify (token secret : string) (t : Z) : exn + decoded :=
  match decode token with
  | None => inl (InvalidToken "jwt malformed")
  | Some s =>
      let c := signed_claims s in
      if negb (String.eqb (signature s) (mac secret c)) then
        inl (InvalidToken "invalid signature")
      else if expiresAt c <=? t then
        inl (InvalidToken "jwt expired")
      else inr (mkDecoded (userId c) (issuedAt c))
  end.

Definition signer : Signer :=
  {| jwt_sign := issue; jwt_verify := verify |}.

End Codec.
End TokenCodec.

(** ** Stand-ins for the collaborators, to run the handlers on examples *)

Module Fixture.

(** A self-delimiting serialization: a number is written as that many
    strokes and a full stop, a string as its length and its characters. *)
Fixpoint tally (n : nat) (rest : string) : string :=
  match n with
  | O => String "."%char rest
  | S n' => String "|"%char (tally n' rest)
  end.

Fixpoint untally (s : string) : option (nat * string) :=
  match s with
  | EmptyString => None
  | String c rest =>
      if Ascii.eqb c "."%char then Some (O, rest)
      else if Ascii.eqb c "|"%char then
        match untally rest with
        | Some (n, r) => Some (S n, r)
        | None => None
        end
      else None
  end.

Definition put_Z (z : Z) (rest : string) : string :=
  String (if z <? 0 then "-"%char else "+"%char) (tally (Z.abs_nat z) rest).

Definition get_Z (s : string) : option (Z * string) :=
  match s with
  | EmptyString => None
  | String c rest =>
      match untally rest with
      | Some (n, r) =>
          if Ascii.eqb c "-"%char then Some (- Z.of_nat n, r)
          else if Ascii.eqb c "+"%char then Some (Z.of_nat n, r)
          else None
      | None => None
      end
  end.

Fixpoint cut (n : nat) (s : string) : option (string * string) :=
  match n with
  | O => Some (EmptyString, s)
  | S n' =>
      match s with
      | EmptyString => None
      | String c r =>
          match cut n' r with
          | Some (a, b) => Some (String c a, b)
          | None => None
          end
      end
  end.

Definition put_string (s rest : string) : string :=
  tally (String.length s) (s ++ rest).

Definition get_string (s : string) : option (string * string) :=
  match untally s with
  | Some (n, r) => cut n r
  | None => None
  end.

Definition write_token (s : TokenCodec.signed) : string :=
  let c := TokenCodec.signed_claims s in
  put_Z (TokenCodec.issuedAt c)
    (put_Z (TokenCodec.expiresAt c)
       (put_string (TokenCodec.signature s) (TokenCodec.userId c))).

Definition read_token (s : string) : option TokenCodec.signed :=
  match get_Z s with
  | Some (i, r1) =>
      match get_Z r1 with
      | Some (e, r2) =>
          match get_string r2 with
          | Some (sig, sub) =>
              Some (TokenCodec.mkSigned (TokenCodec.mkClaims sub i e) sig)
          | None => None
          end
      | None => None
      end
  | None => None
  end.

Definition tag (secret : string) (c : TokenCodec.claims) : string :=
  secret ++ put_Z (TokenCodec.issuedAt c)
               (put_Z (TokenCodec.expiresAt c) (TokenCodec.userId c)).

Definition wire : TokenCodec.Wire :=
  {| TokenCodec.mac := tag;
     TokenCodec.encode := write_token;
     TokenCodec.decode := read_token |}.

Definition env : Env :=
  {| JWT_SECRET := "top-secret"; JWT_EXPIRES_IN := 4 |}.

Definition signer : Signer := @TokenCodec.signer wire.

Definition hasher : Hasher :=
  {| sha256_hex := fun s => "sha256:" ++ s;
     bcrypt_hash := fun s => "bcrypt:" ++ s;
     bcrypt_compare := fun candidate h => String.eqb h ("bcrypt:" ++ candidate) |}.

(** The mail server that is down. *)
Definition mailer_down : Mailer :=
  {| sendEmail := fun _ => Some (mkExn "Error" "connect ECONNREFUSED") |}.

(** Password and confirmation are required and must agree. *)
Definition schema : Schema :=
  {| validators := fun d =>
       match password d, passwordConfirm d with
       | Some p, Some pc =>
           if String.eqb p pc then None
           else Some (User.validation_error "Passwords are not the same!")
       | _, _ => Some (User.validation_error "Please provide a password")
       end;
     new_id := fun us => tally (List.length us) "" |}.

Definition jonas : user :=
  mkUser "u1" "Jonas" "jonas@example.com" "admin" (Some "bcrypt:pass1234")
         None None None None false.

Definition laura : user :=
  mkUser "u2" "Laura" "laura@example.com" "user" (Some "bcrypt:test1234")
         None (Some 3) (Some "sha256:r4nd0m") (Some 9) false.

Definition world0 : world := mkWorld [jonas; laura] 5 "c0ffee" [].

Definition blank : body := mkBody None None None None None None.

End Fixture.

(** ** The answers the handlers give *)

Definition not_logged_in : error :=
  AppError "You're not logged in. Please, log in to get access" 401.

Definition user_gone : error :=
  AppError "The user belonging to this token, does no longer exist" 401.

Definition stale_session : error :=
  AppError "User recently changed password. Please log in again" 401.

Section Answers.
Context {env : Env} {signer : Signer}.

(** What the guard answers, by the token the request presents, the
    verifier's verdict, the user the collection holds and the
    password-changed test. *)
Definition guard (req : request) (w : world) : request * outcome :=
  match bearer (headers_authorization req) with
  | None | Some EmptyString => (req, Next (Some not_logged_in))
  | Some token =>
      match jwt_verify token JWT_SECRET (clock w) with
      | inl e => (req, Next (Some (Uncaught e)))
      | inr d =>
          match find (User.has_id (id d)) (users w) with
          | None => (req, Next (Some user_gone))
          | Some u =>
              if User.changedPasswordAfter u (iat d)
              then (req, Next (Some stale_session))
              else (attach_user (User.project u) req, Next None)
          end
      end
  end.

End Answers.

Definition forbidden : error :=
  AppError "You do not have permission to perform this action" 403.

Definition missing_credentials : error :=
  AppError "Please, provide email and password" 400.

Definition bad_credentials : error :=
  AppError "Incorrect email or password" 401.

Definition invalid_reset_token : error :=
  AppError "Token is invalid or has expired" 400.

Definition reset_mail (req : request) (u : user) (resetToken : string) : mail :=
  mkMail (email u) "Your password reset token (valid for 10 minutes)"
         (AuthController.reset_message
            (AuthController.resetURL_of req resetToken)).

Definition mail_failed : error :=
  AppError "There was an error sending the email. Try again later." 500.

(** ** The reset fields go together *)

Definition isSome {A} (x : option A) : bool :=
  match x with
  | Some _ => true
  | None => false
  end.

(** The reset-token hash and the reset-token expiry of a document are both
    set or both absent. *)
Definition paired (u : user) : Prop :=
  isSome (passwordResetToken u) = isSome (passwordResetExpires u).

Definition event_paired (e : event) : Prop :=
  match e with
  | Saved _ d => paired d
  | Created d => paired d
  | Mailed _ => True
  end.

(** Every stored document, and every document that was ever written, has
    its reset fields paired. *)
Definition reset_fields_paired (w : world) : Prop :=
  Forall paired (users w) /\ Forall event_paired (journal w).

(** The operations of the controller, as the router mounts them. *)
Inductive operation : Type :=
| Signup
| Login
| Protect
| RestrictTo (roles : list string)
| ForgotPassword
| ResetPassword
| UpdatePassword.

Section Routes.
Context {env : Env} {signer : Signer} {hasher : Hasher} {mailer : Mailer}
        {schema : Schema}.

Definition perform (op : operation) (req : request) (w : world)
  : (request * outcome) * world :=
  match op with
  | Signup => catchAsync AuthController.signup req w
  | Login => catchAsync AuthController.login req w
  | Protect => catchAsync AuthController.protect req w
  | RestrictTo roles =>
      match AuthController.restrictTo roles req with
      | inr r => (r, w)
      | inl e => ((req, Next (Some (Uncaught e))), w)
      end
  | ForgotPassword => catchAsync AuthController.forgotPassword req w
  | ResetPassword => catchAsync AuthController.resetPassword req w
  | UpdatePassword => catchAsync AuthController.updatePassword req w
  end.

End Routes.

(** ** Vocabulary of the further properties *)

Fixpoint has_space (s : string) : bool :=
  match s with
  | EmptyString => false
  | String c rest => Ascii.eqb c " "%char || has_space rest
  end.

(** A token a client can present in a header: not empty, no space in it. *)
Definition presentable (token : string) : bool :=
  negb (falsy (Some token)) && negb (has_space token).

(** [req.headers.authorization = h] *)
Definition with_authorization (h : string) (req : request) : request :=
  mkRequest (Some h) (req_body req) (params_token req) (protocol req)
            (host req) (req_user req).

(** The body of the earlier revision's login: the same status and token,
    no user. *)
Definition without_user (o : outcome) : outcome :=
  match o with
  | Respond code (TokenAndUser st token _) => Respond code (TokenOnly st token)
  | _ => o
  end.

Definition is_mail (e : event) : bool :=
  match e with
  | Mailed _ => true
  | _ => false
  end.

(** The mails a world has seen. *)
Definition mails (w : world) : list event := filter is_mail (journal w).

Definition wrong_current_password : error :=
  AppError "You current password is wrong" 401.

(** The document [forgotPassword] saves before it sends the mail, the one it
    saves when the mail failed, and the one [resetPassword] saves. *)
Definition issued_document {hasher : Hasher} (w : world) (u : user) : user :=
  assign_passwordResetExpires (Some (clock w + User.reset_validity))
    (assign_passwordResetToken (Some (sha256_hex (entropy w)))
       (User.project u)).

Definition cleared_document {hasher : Hasher} (w : world) (u : user) : user :=
  assign_passwordResetExpires None
    (assign_passwordResetToken None (issued_document w u)).

Definition reset_document (req : request) (u : user) : user :=
  assign_passwordResetExpires None
    (assign_passwordResetToken None
       (assign_passwordConfirm (body_passwordConfirm (req_body req))
          (User.set_password (body_password (req_body req))
             (User.project u)))).

(** [delete req.body.role] *)
Definition without_role (req : request) : request :=
  let b := req_body req in
  mkRequest (headers_authorization req)
            (mkBody (body_name b) (body_email b) (body_password b)
                    (body_passwordConfirm b) None (body_passwordCurrent b))
            (params_token req) (protocol req) (host req) (req_user req).

(** * Properties *)

(** ** Running a handler *)

Ltac run_handler :=
  unfold User.findById, User.findOne, User.correctPassword;
  unfold catchAsync, bind, ret, throw, try_catch, now; cbn beta iota.

Lemma split_nonempty (sep : ascii) (s : string) : split sep s <> [].
Proof.
  induction s as [|c s IH]; simpl; [discriminate|].
  destruct (Ascii.eqb c sep); [discriminate|].
  destruct (split sep s); [contradiction|discriminate].
Qed.

Lemma prefix_append (p s : string) :
  String.prefix p s = true -> exists rest, s = p ++ rest.
Proof.
  revert s; induction p as [|a p IH]; intros s Hp.
  - now exists s.
  - destruct s as [|b s]; simpl in Hp; [discriminate|].
    destruct (Ascii.ascii_dec a b) as [->|]; [|discriminate].
    destruct (IH s Hp) as [rest ->]. now exists rest.
Qed.

(** The second field of a header that starts with "Bearer " is the first
    field of what follows the prefix. *)
Lemma split_Bearer (rest : string) :
  nth_error (split " "%char ("Bearer " ++ rest)) 1
  = Some (hd EmptyString (split " "%char rest)).
Proof.
  pose proof (split_nonempty " "%char rest) as Hne.
  simpl. destruct (split " "%char rest); [contradiction|reflexivity].
Qed.

Lemma startsWith_Bearer (rest : string) :
  startsWith ("Bearer " ++ rest) "Bearer " = true.
Proof. unfold startsWith; simpl. now destruct rest. Qed.

Lemma bearer_Bearer (rest : string) :
  bearer (Some ("Bearer " ++ rest)) = Some (hd EmptyString (split " "%char rest)).
Proof.
  unfold bearer. rewrite startsWith_Bearer, split_Bearer. reflexivity.
Qed.

Lemma bearer_falsy_iff (h : option string) :
  falsy (bearer h) = true <->
  h = None \/
  exists s, h = Some s /\
    (startsWith s "Bearer " = false
     \/ nth_error (split " "%char s) 1 = Some EmptyString).
Proof.
  destruct h as [s|]; [|simpl; tauto].
  destruct (startsWith s "Bearer ") eqn:Hp.
  - destruct (prefix_append _ _ Hp) as [rest ->].
    rewrite bearer_Bearer.
    split.
    + intros Hf. right. eexists; split; [reflexivity|]. right.
      rewrite split_Bearer.
      now destruct (hd EmptyString (split " "%char rest)).
    + intros [Hn|[s [Hs [Hq|Hq]]]]; [discriminate| |].
      * replace s with ("Bearer " ++ rest) in Hq by congruence. congruence.
      * replace s with ("Bearer " ++ rest) in Hq by congruence.
        rewrite split_Bearer in Hq. now injection Hq as ->.
  - unfold bearer. rewrite Hp, andb_false_r. simpl.
    split; [|reflexivity].
    intros _. right. exists s. auto.
Qed.

Lemma changedPasswordAfter_iff (u : user) (t : Z) :
  User.changedPasswordAfter u t = true <->
  exists changed, passwordChangedAt u = Some changed /\ t < changed.
Proof.
  unfold User.changedPasswordAfter.
  destruct (passwordChangedAt u) as [c|].
  - rewrite Z.ltb_lt. split; [eauto|].
    now intros [c' [[= <-] Hlt]].
  - split; [discriminate|]. now intros [c' [[=] _]].
Qed.

(** ** The stand-in serialization reads back what it writes *)

Section WireFixture.
Import Fixture.

Lemma untally_tally (n : nat) (rest : string) :
  untally (tally n rest) = Some (n, rest).
Proof.
  induction n as [|n IH]; simpl; [reflexivity|].
  now rewrite IH.
Qed.

Lemma get_put_Z (z : Z) (rest : string) :
  get_Z (put_Z z rest) = Some (z, rest).
Proof.
  unfold get_Z, put_Z. rewrite untally_tally.
  destruct (Z.ltb_spec z 0); simpl; f_equal; f_equal; lia.
Qed.

Lemma cut_append (s rest : string) :
  cut (String.length s) (s ++ rest) = Some (s, rest).
Proof.
  induction s as [|c s IH]; simpl; [reflexivity|].
  now rewrite IH.
Qed.

Lemma get_put_string (s rest : string) :
  get_string (put_string s rest) = Some (s, rest).
Proof.
  unfold get_string, put_string.
  rewrite untally_tally. apply cut_append.
Qed.

Lemma read_write_token : TokenCodec.lawful Fixture.wire.
Proof.
  intros [[sub i e] sig].
  cbn [TokenCodec.decode TokenCodec.encode Fixture.wire].
  unfold read_token, write_token.
  cbn [TokenCodec.signed_claims TokenCodec.signature TokenCodec.userId
       TokenCodec.issuedAt TokenCodec.expiresAt].
  now rewrite !get_put_Z, get_put_string.
Qed.

End WireFixture.

(** ** The access guard *)

Section Guard.
Context {env : Env} {signer : Signer}.

Lemma protect_run (req : request) (w : world) :
  catchAsync AuthController.protect req w = (guard req w, w).
Proof.
  unfold catchAsync, AuthController.protect, guard. cbn beta.
  change (match headers_authorization req with
          | Some authorization =>
              if negb (falsy (Some authorization))
                 && startsWith authorization "Bearer "
              then nth_error (split " "%char authorization) 1
              else None
          | None => None
          end) with (bearer (headers_authorization req)).
  destruct (bearer (headers_authorization req)) as [[|c token]|];
    [reflexivity| |reflexivity].
  run_handler. cbn [falsy interpolate].
  destruct (jwt_verify _ _ _) as [e|d]; [reflexivity|].
  destruct (find _ _) as [u|]; [|reflexivity].
  cbn [option_map].
  replace (User.changedPasswordAfter (User.project u) (iat d))
    with (User.changedPasswordAfter u (iat d)) by reflexivity.
  now destruct (User.changedPasswordAfter u (iat d)).
Qed.

End Guard.

(** C1 as stated fails on a token the verifier rejects: the guard builds no
    401 for it, the verifier's own error, which has no status code, is what
    reaches [next]. *)
Lemma protect_rejected_token_is_not_a_401 :
  let req := mkRequest (Some "Bearer junk") Fixture.blank "" "https"
                       "natours.io" None in
  @jwt_verify Fixture.signer "junk" (@JWT_SECRET Fixture.env)
              (clock Fixture.world0)
    = inl (TokenCodec.InvalidToken "jwt malformed")
  /\ fst (catchAsync (@AuthController.protect Fixture.env Fixture.signer)
                     req Fixture.world0)
     = (req, Next (Some (Uncaught (TokenCodec.InvalidToken "jwt malformed"))))
  /\ statusCode_of (Uncaught (TokenCodec.InvalidToken "jwt malformed"))
     <> Some 401.
Proof.
  repeat split; try reflexivity. discriminate.
Qed.

(** C1 (amended): the access guard never touches the world.  It answers
    with the 401 "not logged in" error when the Authorization header is
    absent, does not start with "Bearer " or has an empty second field;
    when the verifier rejects the token it forwards the verifier's own error
    to [next] (no status code is set here); it answers 401 when no user has
    the decoded identifier and 401 when the user's password-changed
    timestamp is later than the token's issued-at time; in every other case
    it attaches the resolved user to the request and calls [next()]. *)
Theorem protect_outcome {env : Env} {signer : Signer}
    (req : request) (w : world) :
  let h := headers_authorization req in
  let result := catchAsync AuthController.protect req w in
  snd result = w
  /\ (h = None
      \/ (exists s, h = Some s /\
            (startsWith s "Bearer " = false
             \/ nth_error (split " "%char s) 1 = Some EmptyString))
      <-> fst result = (req, Next (Some not_logged_in)))
  /\ (forall s token,
        h = Some s -> startsWith s "Bearer " = true ->
        nth_error (split " "%char s) 1 = Some token -> token <> EmptyString ->
        (forall e, jwt_verify token JWT_SECRET (clock w) = inl e ->
           fst result = (req, Next (Some (Uncaught e))))
        /\ (forall d, jwt_verify token JWT_SECRET (clock w) = inr d ->
              (find (User.has_id (id d)) (users w) = None ->
                 fst result = (req, Next (Some user_gone)))
              /\ (forall u changed,
                    find (User.has_id (id d)) (users w) = Some u ->
                    passwordChangedAt u = Some changed -> iat d < changed ->
                    fst result = (req, Next (Some stale_session)))
              /\ (forall u,
                    find (User.has_id (id d)) (users w) = Some u ->
                    (forall changed, passwordChangedAt u = Some changed ->
                                     changed <= iat d) ->
                    fst result = (attach_user (User.project u) req, Next None)))).
Proof.
  cbv zeta. rewrite protect_run. cbn [fst snd].
  split; [reflexivity|]. split.
  - rewrite <- bearer_falsy_iff. unfold guard.
    destruct (bearer (headers_authorization req)) as [[|c token]|];
      cbn [falsy]; split; try reflexivity; try discriminate.
    destruct (jwt_verify _ _ _) as [e|d]; [discriminate|].
    destruct (find _ _) as [u|]; [|discriminate].
    destruct (User.changedPasswordAfter u (iat d)); discriminate.
  - intros s token Hh Hp Hn Hne. unfold guard.
    assert (Hb : bearer (headers_authorization req) = Some token).
    { rewrite Hh. unfold bearer. rewrite Hp.
      destruct s; [discriminate|exact Hn]. }
    rewrite Hb. destruct token as [|c token]; [contradiction|].
    split.
    + intros e ->. reflexivity.
    + intros d ->. repeat split.
      * intros ->. reflexivity.
      * intros u changed -> Hc Hlt.
        assert (Ht : User.changedPasswordAfter u (iat d) = true)
          by (apply changedPasswordAfter_iff; eauto).
        now rewrite Ht.
      * intros u -> Hc.
        destruct (User.changedPasswordAfter u (iat d)) eqn:Ht;
          [|reflexivity].
        apply changedPasswordAfter_iff in Ht as [changed [Hs Hlt]].
        specialize (Hc _ Hs). lia.
Qed.

(** ** Session tokens *)

(** C2: a token that [signToken] issues for an identifier verifies, under the
    same secret and before the configured expiry has elapsed, to a payload
    with that identifier (and the time of issue); from the moment the expiry
    has elapsed, verification of the same token fails with InvalidToken. *)
Theorem verify_signToken {wire : TokenCodec.Wire} {env : Env}
    (i : string) (w : world) (t : Z) :
  TokenCodec.lawful wire ->
  exists token,
    @AuthController.signToken env TokenCodec.signer i w = (inr token, w)
    /\ (t < clock w + JWT_EXPIRES_IN ->
        @jwt_verify TokenCodec.signer token JWT_SECRET t
        = inr (mkDecoded i (clock w)))
    /\ (clock w + JWT_EXPIRES_IN <= t ->
        @jwt_verify TokenCodec.signer token JWT_SECRET t
        = inl (TokenCodec.InvalidToken "jwt expired")).
Proof.
  intros Hlaw. eexists. split; [reflexivity|].
  cbn [jwt_verify jwt_sign TokenCodec.signer].
  unfold TokenCodec.verify, TokenCodec.issue.
  rewrite Hlaw.
  cbn [TokenCodec.signed_claims TokenCodec.signature TokenCodec.userId
       TokenCodec.issuedAt TokenCodec.expiresAt].
  rewrite String.eqb_refl. cbn [negb].
  split; intros Ht.
  - destruct (Z.leb_spec (clock w + JWT_EXPIRES_IN) t); [lia|reflexivity].
  - destruct (Z.leb_spec (clock w + JWT_EXPIRES_IN) t); [reflexivity|lia].
Qed.

(** A token issued at time 5 with a validity of 4 verifies at time 8 and no
    longer at time 9. *)
Lemma verify_signToken_witness :
  exists token,
    @AuthController.signToken Fixture.env Fixture.signer "u1" Fixture.world0
    = (inr token, Fixture.world0)
    /\ @jwt_verify Fixture.signer token (@JWT_SECRET Fixture.env) 8
       = inr (mkDecoded "u1" 5)
    /\ @jwt_verify Fixture.signer token (@JWT_SECRET Fixture.env) 9
       = inl (TokenCodec.InvalidToken "jwt expired").
Proof.
  destruct (@verify_signToken Fixture.wire Fixture.env "u1" Fixture.world0 8
              read_write_token)
    as [token [Hs [Hbefore _]]].
  destruct (@verify_signToken Fixture.wire Fixture.env "u1" Fixture.world0 9
              read_write_token)
    as [token' [Hs' [_ Hafter]]].
  exists token. split; [exact Hs|]. split.
  - apply Hbefore. simpl. lia.
  - replace token with token' by congruence. apply Hafter. simpl. lia.
Defined.

(** ** The role gate *)

(** C9: for a request whose user the access guard has attached, the
    middleware [restrictTo(...roles)] calls [next()] exactly when the user's
    role is one of the roles and answers 403 otherwise; the request (and the
    user on it) comes back as it went in, and no world is involved.  An
    admin passes a gate for admin and lead-guide, a user fails a gate for
    admin with 403. *)
Theorem restrictTo_allows (roles : list string) (req : request) (u : user) :
  let guarded := attach_user u req in
  (In (role u) roles ->
     AuthController.restrictTo roles guarded = inr (guarded, Next None))
  /\ (~ In (role u) roles ->
        AuthController.restrictTo roles guarded
        = inr (guarded, Next (Some forbidden)))
  /\ (forall req' out,
        AuthController.restrictTo roles guarded = inr (req', out) ->
        req' = guarded /\ (out = Next None <-> In (role u) roles))
  /\ AuthController.restrictTo ["admin"; "lead-guide"]
       (attach_user Fixture.jonas req)
     = inr (attach_user Fixture.jonas req, Next None)
  /\ AuthController.restrictTo ["admin"] (attach_user Fixture.laura req)
     = inr (attach_user Fixture.laura req, Next (Some forbidden)).
Proof.
  cbv zeta. unfold AuthController.restrictTo. cbn [attach_user req_user].
  assert (Hin : existsb (String.eqb (role u)) roles = true <-> In (role u) roles).
  { rewrite existsb_exists. split.
    - intros [r [Hr He]]. apply String.eqb_eq in He. now subst.
    - intros Hr. exists (role u). split; [exact Hr|apply String.eqb_refl]. }
  destruct (existsb (String.eqb (role u)) roles) eqn:He; cbn [negb].
  - assert (Hr : In (role u) roles) by now apply Hin.
    repeat split; try reflexivity; try tauto; try congruence.
  - assert (Hr : ~ In (role u) roles).
    { intros Hr. apply Hin in Hr. discriminate. }
    repeat split; try reflexivity; try tauto; try congruence.
Qed.

(** ** The two revisions of the access guard *)

(** C10: the access guard of the earlier revision and the one of
    [authController.js] are the same function: on every request and world,
    with the same secret, verifier, collection and password-changed test,
    both raise the same error or attach the same user and continue. *)
Theorem protect_revisions_agree {env : Env} {signer : Signer}
    (req : request) (w : world) :
  Part000.protect req w = AuthController.protect req w
  /\ catchAsync Part000.protect req w = catchAsync AuthController.protect req w.
Proof.
  split; reflexivity.
Qed.

(** ** Login *)

Section Login.
Context {env : Env} {signer : Signer} {hasher : Hasher}.

(** Every way [login] can end. *)
Lemma login_cases (req : request) (w : world) :
  let answer := fst (catchAsync AuthController.login req w) in
  answer = (req, Next (Some missing_credentials))
  \/ answer = (req, Next (Some bad_credentials))
  \/ (exists e, answer = (req, Next (Some (Uncaught e))))
  \/ (exists token u, answer = (req, Respond 200 (TokenAndUser "success" token u))
                      /\ In u (users w)).
Proof.
  cbv zeta. unfold AuthController.login, AuthController.createSendToken,
    AuthController.signToken.
  run_handler.
  destruct (falsy (body_email (req_body req))
            || falsy (body_password (req_body req))); [now left|].
  destruct (find _ _) as [u|] eqn:Hf; [|now right; left].
  destruct (body_password (req_body req)) as [p|];
    [|right; right; left; eexists; reflexivity].
  destruct (password u) as [h|];
    [|right; right; left; eexists; reflexivity].
  cbn beta iota.
  destruct (bcrypt_compare p h); cbn [negb].
  - right; right; right. do 2 eexists. split; [reflexivity|].
    apply find_some in Hf. tauto.
  - now right; left.
Qed.

End Login.

(** C8: [login] answers 400 when the email or the password is missing from
    the body (or empty); when no user has the email, or the password check
    fails, it answers 401 with the one message "Incorrect email or password";
    so the errors of any two login runs that end in a 401 are identical,
    whatever the cause. *)
Theorem login_failures {env : Env} {signer : Signer} {hasher : Hasher} :
  (forall req w,
     falsy (body_email (req_body req)) = true
     \/ falsy (body_password (req_body req)) = true ->
     catchAsync AuthController.login req w
     = ((req, Next (Some missing_credentials)), w))
  /\ (forall req w,
        falsy (body_email (req_body req)) = false ->
        falsy (body_password (req_body req)) = false ->
        find (User.has_email (body_email (req_body req))) (users w) = None ->
        catchAsync AuthController.login req w
        = ((req, Next (Some bad_credentials)), w))
  /\ (forall req w u p h,
        falsy (body_email (req_body req)) = false ->
        body_password (req_body req) = Some p -> p <> EmptyString ->
        find (User.has_email (body_email (req_body req))) (users w) = Some u ->
        password u = Some h -> bcrypt_compare p h = false ->
        catchAsync AuthController.login req w
        = ((req, Next (Some bad_credentials)), w))
  /\ (forall req1 w1 req2 w2 e1 e2,
        snd (fst (catchAsync AuthController.login req1 w1)) = Next (Some e1) ->
        statusCode_of e1 = Some 401 ->
        snd (fst (catchAsync AuthController.login req2 w2)) = Next (Some e2) ->
        statusCode_of e2 = Some 401 ->
        e1 = e2).
Proof.
  repeat split.
  - intros req w Hm. unfold AuthController.login. run_handler.
    destruct Hm as [-> | ->]; cbn [orb]; [reflexivity|].
    now rewrite orb_true_r.
  - intros req w He Hp Hf. unfold AuthController.login. run_handler.
    rewrite He, Hp. cbn [orb]. now rewrite Hf.
  - intros req w u p h He Hp Hne Hf Hh Hc.
    unfold AuthController.login. run_handler.
    rewrite He, Hp.
    destruct p as [|c p]; [contradiction|]. cbn [falsy orb].
    rewrite Hf, Hh. cbn beta iota. now rewrite Hc.
  - assert (H401 : forall req w e,
              snd (fst (catchAsync AuthController.login req w)) = Next (Some e) ->
              statusCode_of e = Some 401 -> e = bad_credentials).
    { intros req w e Ho Hs.
      destruct (login_cases req w) as [H|[H|[[x H]|[tk [u [H _]]]]]];
        cbv zeta in H; rewrite H in Ho; cbn [snd] in Ho;
        try discriminate Ho;
        injection Ho as <-; try reflexivity; discriminate. }
    intros req1 w1 req2 w2 e1 e2 Ho1 Hs1 Ho2 Hs2.
    rewrite (H401 _ _ _ Ho1 Hs1), (H401 _ _ _ Ho2 Hs2). reflexivity.
Qed.

(** A login that succeeds sends the stored document as it was read, with
    the password selected. *)
Lemma login_success_sends_document
    {env : Env} {signer : Signer} {hasher : Hasher}
    (req : request) (w : world) (code : Z) (st token : string) (u : user) :
  snd (fst (catchAsync AuthController.login req w))
  = Respond code (TokenAndUser st token u) ->
  In u (users w) /\ exists h, password u = Some h.
Proof.
  unfold AuthController.login, AuthController.createSendToken,
    AuthController.signToken.
  run_handler.
  destruct (falsy _ || falsy _); [discriminate|].
  destruct (find _ _) as [v|] eqn:Hf; [|discriminate].
  destruct (body_password (req_body req)) as [p|]; [|discriminate].
  destruct (password v) as [h|] eqn:Hh; [|discriminate].
  cbn beta iota. destruct (bcrypt_compare p h); cbn [negb]; [|discriminate].
  cbn [fst snd]. intros [= _ _ _ <-].
  apply find_some in Hf. split; [tauto|eauto].
Qed.

(** C4 fails on the code: [login] reads the user with the password selected
    and [createSendToken] serializes that document as it is, so the body of
    a successful login carries the stored password hash. *)
Theorem login_response_carries_password_hash :
  let req := mkRequest None
               (mkBody None (Some "jonas@example.com") (Some "pass1234")
                       None None None)
               "" "https" "natours.io" None in
  exists token,
    fst (catchAsync (@AuthController.login Fixture.env Fixture.signer
                                           Fixture.hasher)
                    req Fixture.world0)
    = (req, Respond 200 (TokenAndUser "success" token Fixture.jonas))
    /\ password Fixture.jonas = Some "bcrypt:pass1234".
Proof.
  cbv zeta. eexists. split; [vm_compute; reflexivity|reflexivity].
Qed.

(** ** Resetting a password *)

(** The lookup of [resetPassword] finds a user only if the stored hash is
    the digest of the incoming token and the stored expiry is strictly
    later than the clock. *)
Lemma reset_matches_iff {hasher : Hasher} (token : string) (t : Z) (u : user) :
  User.reset_matches (sha256_hex token) t u = true <->
  passwordResetToken u = Some (sha256_hex token)
  /\ exists expires, passwordResetExpires u = Some expires /\ t < expires.
Proof.
  unfold User.reset_matches.
  destruct (passwordResetToken u) as [h|], (passwordResetExpires u) as [e|];
    try (split; [discriminate|]; intros [Hh [x [Hx _]]]; discriminate).
  rewrite andb_true_iff, String.eqb_eq, Z.ltb_lt.
  split.
  - intros [-> Hlt]. eauto.
  - intros [[= ->] [x [[= <-] Hlt]]]. auto.
Qed.

(** C5: when no user has the digest of the incoming token as its stored
    reset token together with an expiry later than the clock, [resetPassword]
    answers 400 "Token is invalid or has expired" and writes nothing: the
    world, and with it every stored password, is as it was. *)
Theorem resetPassword_without_match
    {env : Env} {signer : Signer} {hasher : Hasher} {schema : Schema}
    (req : request) (w : world) :
  (forall u, In u (users w) ->
     ~ (passwordResetToken u = Some (sha256_hex (params_token req))
        /\ exists expires,
             passwordResetExpires u = Some expires /\ clock w < expires)) ->
  catchAsync AuthController.resetPassword req w
  = ((req, Next (Some invalid_reset_token)), w).
Proof.
  intros Hnone.
  assert (Hf : find (User.reset_matches (sha256_hex (params_token req)) (clock w))
                    (users w) = None).
  { destruct (find _ _) as [u|] eqn:Hf; [|reflexivity].
    apply find_some in Hf as [Hin Hm].
    apply reset_matches_iff in Hm. now destruct (Hnone u Hin). }
  unfold AuthController.resetPassword. run_handler.
  now rewrite Hf.
Qed.

(** Laura's reset token expires at 9; presented at 9 it is refused and the
    collection is untouched. *)
Lemma resetPassword_without_match_witness :
  let req := mkRequest None
               (mkBody None None (Some "newpass12") (Some "newpass12")
                       None None)
               "r4nd0m" "https" "natours.io" None in
  let late := mkWorld [Fixture.jonas; Fixture.laura] 9 "c0ffee" [] in
  catchAsync (@AuthController.resetPassword Fixture.env Fixture.signer
                Fixture.hasher Fixture.schema) req late
  = ((req, Next (Some invalid_reset_token)), late).
Proof.
  cbv zeta. apply resetPassword_without_match.
  intros u Hin [Hh [expires [He Hlt]]].
  simpl in Hin. destruct Hin as [<-|[<-|[]]].
  - discriminate.
  - simpl in He, Hlt. injection He as <-. lia.
Defined.

(** [resetPassword] gets past its lookup only for a stored user whose reset
    token is the digest of the incoming token and whose expiry is strictly
    later than the clock. *)
Lemma resetPassword_match_only
    {env : Env} {signer : Signer} {hasher : Hasher} {schema : Schema}
    (req : request) (w : world) :
  snd (fst (catchAsync AuthController.resetPassword req w))
  <> Next (Some invalid_reset_token) ->
  exists u, In u (users w)
    /\ passwordResetToken u = Some (sha256_hex (params_token req))
    /\ exists expires,
         passwordResetExpires u = Some expires /\ clock w < expires.
Proof.
  unfold AuthController.resetPassword. run_handler.
  destruct (find _ _) as [u|] eqn:Hf; [|now intros []].
  intros _. apply find_some in Hf as [Hin Hm].
  apply reset_matches_iff in Hm. eauto.
Qed.

(** ** Asking for a reset token *)

(** Writing a document reaches every stored document with its identifier,
    and puts the document's reset fields there. *)
Lemma write_reaches (d : user) (us : list user) (u : user) :
  In u us -> _id u = _id d ->
  (exists s, In s (User.write d us) /\ _id s = _id d)
  /\ (forall s, In s (User.write d us) -> _id s = _id d ->
        passwordResetToken s = passwordResetToken d
        /\ passwordResetExpires s = passwordResetExpires d).
Proof.
  intros Hin Hid. unfold User.write. split.
  - exists (User.merge u d). split.
    + apply in_map_iff. exists u. split; [|exact Hin].
      unfold User.has_id. rewrite Hid, String.eqb_refl. reflexivity.
    + unfold User.merge. now destruct (password d).
  - intros s Hs Hsid. apply in_map_iff in Hs as [x [Hx _]].
    unfold User.has_id in Hx.
    destruct (String.eqb_spec (_id x) (_id d)) as [He|Hne].
    + subst s. unfold User.merge. now destruct (password d).
    + subst s. contradiction.
Qed.

(** C6: [forgotPassword] answers 404 when no user has the email.
    Otherwise it puts the digest of a fresh token and the expiry on the
    user and saves it without validation, and only then sends the mail, once.
    When the mail goes out it answers 200 with "Token sent to email".  When
    sending fails it clears both reset fields, saves again without
    validation, does not send again, and answers 500. *)
Theorem forgotPassword_flow
    {hasher : Hasher} {mailer : Mailer} {schema : Schema}
    (req : request) (w : world) :
  let e := body_email (req_body req) in
  let result := catchAsync AuthController.forgotPassword req w in
  (find (User.has_email e) (users w) = None ->
     result
     = ((req, Next (Some (AppError ("There's no user with " ++ interpolate e
                                      ++ " address") 404))), w))
  /\ (forall u,
        find (User.has_email e) (users w) = Some u ->
        let issued :=
          assign_passwordResetExpires (Some (clock w + User.reset_validity))
            (assign_passwordResetToken (Some (sha256_hex (entropy w)))
               (User.project u)) in
        let cleared :=
          assign_passwordResetExpires None
            (assign_passwordResetToken None issued) in
        let m := reset_mail req u (entropy w) in
        (sendEmail m = None ->
           result
           = ((req, Respond 200 (StatusMessage "success" "Token sent to email")),
              mkWorld (User.write issued (users w)) (clock w) (entropy w)
                      (journal w ++ [Saved false issued; Mailed m]))
           /\ exists s, In s (users (snd result)) /\ _id s = _id u
                /\ passwordResetToken s = Some (sha256_hex (entropy w))
                /\ passwordResetExpires s
                   = Some (clock w + User.reset_validity))
        /\ (forall err, sendEmail m = Some err ->
              result
              = ((req, Next (Some mail_failed)),
                 mkWorld (User.write cleared (User.write issued (users w)))
                         (clock w) (entropy w)
                         (journal w ++ [Saved false issued; Mailed m;
                                        Saved false cleared]))
              /\ forall s, In s (users (snd result)) -> _id s = _id u ->
                   passwordResetToken s = None
                   /\ passwordResetExpires s = None)).
Proof.
  cbv zeta.
  unfold AuthController.forgotPassword, User.createPasswordResetToken,
    User.save, deliver.
  run_handler. split.
  - intros ->. reflexivity.
  - intros u Hf. rewrite Hf. cbn [option_map].
    pose proof (find_some _ _ Hf) as [Hin _].
    set (issued := assign_passwordResetExpires _ _).
    set (m := reset_mail req u (entropy w)).
    assert (Hw : forall d, _id d = _id u ->
              (exists s, In s (User.write d (users w)) /\ _id s = _id d)
              /\ (forall s, In s (User.write d (users w)) -> _id s = _id d ->
                    passwordResetToken s = passwordResetToken d
                    /\ passwordResetExpires s = passwordResetExpires d)).
    { intros d Hd. now apply (write_reaches d (users w) u). }
    split.
    + intros Hsent.
      change (sendEmail (mkMail (email (User.presave (clock w) issued))
                 "Your password reset token (valid for 10 minutes)"
                 (AuthController.reset_message
                    (AuthController.resetURL_of req (entropy w)))))
        with (sendEmail m).
      rewrite Hsent. unfold record_event. cbn [users clock entropy journal].
      rewrite <- app_assoc. cbn [app]. split; [reflexivity|].
      cbn [snd users].
      destruct (Hw issued eq_refl) as [[s [Hs Hid]] Hall].
      exists s. repeat split; try assumption; now apply Hall.
    + intros err Hfail.
      change (sendEmail (mkMail (email (User.presave (clock w) issued))
                 "Your password reset token (valid for 10 minutes)"
                 (AuthController.reset_message
                    (AuthController.resetURL_of req (entropy w)))))
        with (sendEmail m).
      rewrite Hfail. unfold record_event. cbn [users clock entropy journal].
      rewrite <- !app_assoc. cbn [app]. split; [reflexivity|].
      cbn [snd users].
      intros s Hs Hid.
      destruct (Hw issued eq_refl) as [[s0 [Hs0 Hid0]] _].
      set (cleared := assign_passwordResetExpires None
                        (assign_passwordResetToken None issued)) in *.
      destruct (write_reaches cleared (User.write issued (users w)) s0 Hs0 Hid0)
        as [_ Hall].
      now apply Hall.
Qed.

Section Router.
Context {env : Env} {signer : Signer} {hasher : Hasher} {mailer : Mailer}
        {schema : Schema}.

Lemma paired_fields (a b : user) :
  passwordResetToken a = passwordResetToken b ->
  passwordResetExpires a = passwordResetExpires b ->
  paired b -> paired a.
Proof. unfold paired. now intros -> ->. Qed.

Lemma paired_found (f : user -> bool) (us : list user) (u : user) :
  Forall paired us -> find f us = Some u -> paired u.
Proof.
  intros Hall Hf. apply find_some in Hf as [Hin _].
  rewrite Forall_forall in Hall. now apply Hall.
Qed.

Lemma paired_presave (t : Z) (d : user) : paired d -> paired (User.presave t d).
Proof.
  unfold User.presave. now destruct (passwordModified d).
Qed.

Lemma paired_write (d : user) (us : list user) :
  paired d -> Forall paired us -> Forall paired (User.write d us).
Proof.
  intros Hd Hall. unfold User.write. apply Forall_map.
  apply (Forall_impl _ (P := paired)); [|exact Hall].
  intros s Hs. destruct (User.has_id (_id d) s); [|exact Hs].
  apply (paired_fields _ d); [| |exact Hd];
    unfold User.merge; now destruct (password d).
Qed.

Lemma paired_record (e : event) (us : list user) (w : world) :
  event_paired e -> Forall paired us -> Forall event_paired (journal w) ->
  reset_fields_paired (record_event e us w).
Proof.
  intros He Hus Hj. split; [exact Hus|].
  cbn [record_event journal]. apply Forall_app. auto.
Qed.

(** Saving a paired document keeps the world paired, whether the
    validation lets it through or not. *)
Lemma save_paired (v : bool) (d : user) (w : world) :
  paired d -> reset_fields_paired w ->
  reset_fields_paired (snd (User.save v d w))
  /\ forall d', fst (User.save v d w) = inr d' -> paired d'.
Proof.
  intros Hd [Hus Hj]. unfold User.save.
  destruct (if v then validators d else None) as [err|]; cbn [fst snd].
  - split; [now split|discriminate].
  - pose proof (paired_presave (clock w) d Hd) as Hp. split.
    + apply paired_record; [exact Hp| |exact Hj]. now apply paired_write.
    + now intros d' [= <-].
Qed.

Lemma create_paired (n e p pc r : option string) (w : world) :
  reset_fields_paired w ->
  reset_fields_paired (snd (User.create n e p pc r w)).
Proof.
  intros [Hus Hj]. unfold User.create.
  destruct n as [n'|], e as [e'|]; try (now split).
  destruct (validators _) as [err|]; cbn [snd]; [now split|].
  apply paired_record; [reflexivity| |exact Hj].
  apply Forall_app. split; [exact Hus|]. now repeat constructor.
Qed.

Lemma deliver_paired (m : mail) (w : world) :
  reset_fields_paired w -> reset_fields_paired (snd (deliver m w)).
Proof.
  intros [Hus Hj]. unfold deliver.
  assert (reset_fields_paired (record_event (Mailed m) (users w) w))
    by (apply paired_record; [exact I|exact Hus|exact Hj]).
  now destruct (sendEmail m).
Qed.

End Router.

(** C7: every operation of the controller keeps the reset-token hash and
    the reset-token expiry of every stored document, and of every document
    it writes, both set or both absent: [forgotPassword] sets the two
    together and clears the two together when the mail fails, a successful
    [resetPassword] clears the two together before it saves, and no other
    operation touches them. *)
Theorem operations_keep_reset_fields_paired
    {env : Env} {signer : Signer} {hasher : Hasher} {mailer : Mailer}
    {schema : Schema}
    (op : operation) (req : request) (w : world) :
  reset_fields_paired w ->
  reset_fields_paired (snd (perform op req w)).
Proof.
  intros Hw. pose proof Hw as [Hus Hj].
  destruct op; cbn [perform].
  - (* signup *)
    unfold AuthController.signup, AuthController.createSendToken,
      AuthController.signToken.
    run_handler.
    pose proof (create_paired (body_name (req_body req))
                  (body_email (req_body req)) (body_password (req_body req))
                  (body_passwordConfirm (req_body req))
                  (body_role (req_body req)) w Hw) as Hc.
    now destruct (User.create _ _ _ _ _ w) as [[err|d] w'].
  - (* login *)
    unfold AuthController.login, AuthController.createSendToken,
      AuthController.signToken.
    run_handler.
    destruct (falsy _ || falsy _); [exact Hw|].
    destruct (find _ _) as [u|]; [|exact Hw].
    destruct (body_password (req_body req)), (password u); try exact Hw.
    cbn beta iota. now destruct (bcrypt_compare _ _).
  - (* protect *)
    now rewrite protect_run.
  - (* restrictTo *)
    now destruct (AuthController.restrictTo roles req).
  - (* forgotPassword *)
    unfold AuthController.forgotPassword, User.createPasswordResetToken.
    run_handler.
    destruct (find _ _) as [u|] eqn:Hf; [|exact Hw].
    cbn [option_map].
    set (issued := assign_passwordResetExpires _ _).
    assert (Hi : paired issued) by reflexivity.
    destruct (save_paired false issued w Hi Hw) as [Hw1 Hd1].
    destruct (User.save false issued w) as [[err|d1] w1]; [exact Hw1|].
    cbn [fst snd] in Hw1, Hd1. specialize (Hd1 d1 eq_refl).
    match goal with
    | |- context [deliver ?m w1] =>
        pose proof (deliver_paired m w1 Hw1) as Hw2;
        destruct (deliver m w1) as [[err|[]] w2]
    end; [|exact Hw2].
    cbn [snd] in Hw2.
    set (cleared := assign_passwordResetExpires None _).
    assert (Hc : paired cleared) by reflexivity.
    destruct (save_paired false cleared w2 Hc Hw2) as [Hw3 _].
    now destruct (User.save false cleared w2) as [[err'|d3] w3].
  - (* resetPassword *)
    unfold AuthController.resetPassword, AuthController.createSendToken,
      AuthController.signToken.
    run_handler.
    destruct (find _ _) as [u|] eqn:Hf; [|exact Hw].
    cbn [option_map].
    set (cleared := assign_passwordResetExpires None _).
    assert (Hc : paired cleared) by reflexivity.
    destruct (save_paired true cleared w Hc Hw) as [Hw1 _].
    now destruct (User.save true cleared w) as [[err|d1] w1].
  - (* updatePassword *)
    unfold AuthController.updatePassword, AuthController.createSendToken,
      AuthController.signToken.
    run_handler.
    destruct (req_user req) as [current|]; [|exact Hw].
    destruct (find _ _) as [u|] eqn:Hf; [|exact Hw].
    pose proof (paired_found _ _ _ Hus Hf) as Hu.
    destruct (body_passwordCurrent (req_body req)), (password u) eqn:Hp;
      try exact Hw.
    cbn beta iota. destruct (bcrypt_compare _ _); cbn [negb]; [|exact Hw].
    set (changed := assign_passwordConfirm _ _).
    assert (Hc : paired changed).
    { apply (paired_fields _ u); [| |exact Hu]; subst changed;
        unfold User.set_password;
        now destruct (User.same_value _ _). }
    destruct (save_paired true changed w Hc Hw) as [Hw1 _].
    now destruct (User.save true changed w) as [[err|d1] w1].
Qed.

(** The fixture's collection is paired (Jonas has neither field, Laura has
    both), and stays so when Laura asks for a new reset token while the mail
    server is down. *)
Lemma operations_keep_reset_fields_paired_witness :
  reset_fields_paired
    (snd (@perform Fixture.env Fixture.signer Fixture.hasher
            Fixture.mailer_down Fixture.schema ForgotPassword
            (mkRequest None
               (mkBody None (Some "laura@example.com") None None None None)
               "" "https" "natours.io" None)
            Fixture.world0)).
Proof.
  apply operations_keep_reset_fields_paired.
  split; [|constructor].
  repeat constructor.
Defined.

(** ** Runs on the fixture *)

(** A token that [signup] hands out is accepted by the access guard. *)
Example signup_then_protect :
  let req := mkRequest None
               (mkBody (Some "Kate") (Some "kate@example.com")
                       (Some "pass1234") (Some "pass1234") None None)
               "" "https" "natours.io" None in
  match catchAsync (@AuthController.signup Fixture.env Fixture.signer
                      Fixture.hasher Fixture.schema) req Fixture.world0 with
  | ((_, Respond 201 (TokenAndUser _ token kate)), w1) =>
      role kate = "user"
      /\ fst (catchAsync (@AuthController.protect Fixture.env Fixture.signer)
                (mkRequest (Some ("Bearer " ++ token)) Fixture.blank ""
                           "https" "natours.io" None) w1)
         = (mkRequest (Some ("Bearer " ++ token)) Fixture.blank ""
                      "https" "natours.io" (Some (User.project kate)),
            Next None)
  | _ => False
  end.
Proof. vm_compute. split; reflexivity. Qed.

(** Laura changed her password at 3: a token issued to her at 2 is stale at
    5, although it has not expired. *)
Example protect_stale_session :
  match @AuthController.signToken Fixture.env Fixture.signer "u2"
          (mkWorld [] 2 "" []) with
  | (inr token, _) =>
      snd (fst (catchAsync (@AuthController.protect Fixture.env Fixture.signer)
                  (mkRequest (Some ("Bearer " ++ token)) Fixture.blank ""
                             "https" "natours.io" None) Fixture.world0))
      = Next (Some stale_session)
  | _ => False
  end.
Proof. vm_compute. reflexivity. Qed.

(** With the mail server down, [forgotPassword] saves, tries the mail once,
    saves the cleared document and answers 500. *)
Example forgotPassword_mail_down :
  let req := mkRequest None
               (mkBody None (Some "jonas@example.com") None None None None)
               "" "https" "natours.io" None in
  let result := catchAsync (@AuthController.forgotPassword Fixture.hasher
                              Fixture.mailer_down Fixture.schema)
                           req Fixture.world0 in
  snd (fst result) = Next (Some mail_failed)
  /\ users (snd result) = users Fixture.world0
  /\ match journal (snd result) with
     | [Saved false issued; Mailed m; Saved false cleared] =>
         passwordResetToken issued = Some "sha256:c0ffee"
         /\ passwordResetExpires issued = Some 600005
         /\ mail_email m = "jonas@example.com"
         /\ passwordResetToken cleared = None
         /\ passwordResetExpires cleared = None
     | _ => False
     end.
Proof. vm_compute. repeat split; reflexivity. Qed.

(** Laura resets her password at 5 with the token whose digest is stored:
    the new hash is stored, both reset fields are cleared, she is logged
    in. *)
Example resetPassword_success :
  let req := mkRequest None
               (mkBody None None (Some "newpass12") (Some "newpass12")
                       None None)
               "r4nd0m" "https" "natours.io" None in
  let result := catchAsync (@AuthController.resetPassword Fixture.env
                              Fixture.signer Fixture.hasher Fixture.schema)
                           req Fixture.world0 in
  match snd (fst result), users (snd result) with
  | Respond 200 (TokenAndUser _ _ sent), [jonas'; laura'] =>
      jonas' = Fixture.jonas
      /\ password laura' = Some "bcrypt:newpass12"
      /\ passwordResetToken laura' = None
      /\ passwordResetExpires laura' = None
      /\ passwordChangedAt laura' = Some 5
      /\ sent = laura'
  | _, _ => False
  end.
Proof. vm_compute. repeat split; reflexivity. Qed.

(** * Further properties *)

(** ** Splitting a header *)

Lemma split_spaceless (t : string) :
  has_space t = false -> split " "%char t = [t].
Proof.
  induction t as [|c t IH]; simpl; [reflexivity|].
  intros H. apply orb_false_iff in H as [Hc Ht].
  rewrite Hc, (IH Ht). reflexivity.
Qed.

Lemma split_at_first_space (t rest : string) :
  has_space t = false ->
  split " "%char (t ++ String " "%char rest) = t :: split " "%char rest.
Proof.
  induction t as [|c t IH]; simpl; [reflexivity|].
  intros H. apply orb_false_iff in H as [Hc Ht].
  rewrite Hc, (IH Ht). reflexivity.
Qed.

Lemma bearer_presentable (token : string) :
  presentable token = true -> bearer (Some ("Bearer " ++ token)) = Some token.
Proof.
  unfold presentable. intros H. apply andb_true_iff in H as [_ Hs].
  apply negb_true_iff in Hs.
  rewrite bearer_Bearer, (split_spaceless _ Hs). reflexivity.
Qed.

(** X11: the access guard reads the second space-separated field of the
    header and nothing else: whatever follows a second space changes
    neither the answer nor the user it attaches, and a header with two
    spaces after "Bearer" presents no token at all. *)
Theorem protect_reads_second_field {env : Env} {signer : Signer}
    (req : request) (w : world) (t rest : string) :
  has_space t = false ->
  let long := catchAsync AuthController.protect
                (with_authorization ("Bearer " ++ t ++ String " "%char rest) req) w in
  let short := catchAsync AuthController.protect
                 (with_authorization ("Bearer " ++ t) req) w in
  snd (fst long) = snd (fst short)
  /\ req_user (fst (fst long)) = req_user (fst (fst short))
  /\ snd (fst (catchAsync AuthController.protect
                 (with_authorization ("Bearer " ++ String " "%char rest) req) w))
     = Next (Some not_logged_in).
Proof.
  intros Ht. cbv zeta. rewrite !protect_run. cbn [fst snd]. unfold guard.
  cbn [with_authorization headers_authorization].
  rewrite !bearer_Bearer, (split_spaceless _ Ht),
    (split_at_first_space _ _ Ht).
  cbn [hd split Ascii.eqb Bool.eqb].
  split; [|split; [|reflexivity]].
  - destruct t as [|c t]; [reflexivity|].
    destruct (jwt_verify _ _ _) as [e|d]; [reflexivity|].
    destruct (find _ _) as [u|]; [|reflexivity].
    now destruct (User.changedPasswordAfter u (iat d)).
  - destruct t as [|c t]; [reflexivity|].
    destruct (jwt_verify _ _ _) as [e|d]; [reflexivity|].
    destruct (find _ _) as [u|]; [|reflexivity].
    now destruct (User.changedPasswordAfter u (iat d)).
Qed.

Lemma protect_reads_second_field_witness :
  snd (fst (catchAsync (@AuthController.protect Fixture.env Fixture.signer)
              (with_authorization "Bearer abc def"
                 (mkRequest None Fixture.blank "" "https" "natours.io" None))
              Fixture.world0))
  = snd (fst (catchAsync (@AuthController.protect Fixture.env Fixture.signer)
                (with_authorization "Bearer abc"
                   (mkRequest None Fixture.blank "" "https" "natours.io" None))
                Fixture.world0)).
Proof.
  apply (@protect_reads_second_field Fixture.env Fixture.signer
           (mkRequest None Fixture.blank "" "https" "natours.io" None)
           Fixture.world0 "abc" "def").
  reflexivity.
Defined.

(** ** Changing the password *)

(** X1: [updatePassword] asks for the current password even on an
    authenticated request: when the posted current password does not match
    the stored hash it answers 401 "You current password is wrong" and
    writes nothing. *)
Theorem updatePassword_wrong_current
    {env : Env} {signer : Signer} {hasher : Hasher} {schema : Schema}
    (req : request) (w : world) (current u : user) (posted h : string) :
  req_user req = Some current ->
  find (User.has_id (_id current)) (users w) = Some u ->
  password u = Some h ->
  body_passwordCurrent (req_body req) = Some posted ->
  bcrypt_compare posted h = false ->
  catchAsync AuthController.updatePassword req w
  = ((req, Next (Some wrong_current_password)), w).
Proof.
  intros Hu Hf Hp Hc Hb.
  unfold AuthController.updatePassword. run_handler.
  rewrite Hu, Hf, Hc, Hp. cbn beta iota. now rewrite Hb.
Qed.

Lemma updatePassword_wrong_current_witness :
  let req := mkRequest None
               (mkBody None None (Some "newpass12") (Some "newpass12") None
                       (Some "guess"))
               "" "https" "natours.io" (Some (User.project Fixture.jonas)) in
  catchAsync (@AuthController.updatePassword Fixture.env Fixture.signer
                Fixture.hasher Fixture.schema) req Fixture.world0
  = ((req, Next (Some wrong_current_password)), Fixture.world0).
Proof.
  cbv zeta.
  apply (@updatePassword_wrong_current Fixture.env Fixture.signer
           Fixture.hasher Fixture.schema _ _ (User.project Fixture.jonas)
           Fixture.jonas "guess" "bcrypt:pass1234"); reflexivity.
Defined.

(** X2: [updatePassword] has no guard of its own: on a request that did not
    pass the access guard, or whose user has been deleted since, it does not
    answer with an operational error but throws a TypeError, which reaches
    [next] as it is; nothing is written. *)
Theorem updatePassword_without_user
    {env : Env} {signer : Signer} {hasher : Hasher} {schema : Schema}
    (req : request) (w : world) :
  req_user req = None
  \/ (exists current, req_user req = Some current
        /\ find (User.has_id (_id current)) (users w) = None) ->
  exists e,
    catchAsync AuthController.updatePassword req w
    = ((req, Next (Some (Uncaught e))), w)
    /\ exn_name e = "TypeError".
Proof.
  unfold AuthController.updatePassword. run_handler.
  intros [Hn|[current [Hu Hf]]].
  - rewrite Hn. eexists. split; reflexivity.
  - rewrite Hu, Hf. eexists. split; reflexivity.
Qed.

Lemma updatePassword_without_user_witness :
  exists e,
    catchAsync (@AuthController.updatePassword Fixture.env Fixture.signer
                  Fixture.hasher Fixture.schema)
               (mkRequest None Fixture.blank "" "https" "natours.io" None)
               Fixture.world0
    = ((mkRequest None Fixture.blank "" "https" "natours.io" None,
        Next (Some (Uncaught e))), Fixture.world0)
    /\ exn_name e = "TypeError".
Proof.
  apply (@updatePassword_without_user Fixture.env Fixture.signer
           Fixture.hasher Fixture.schema).
  left. reflexivity.
Defined.

(** ** The role gate, further *)

(** X3: the role gate depends on the roles only as a set (order and
    repetition do not matter); with no role at all it refuses every user;
    and on a request without a user it throws a TypeError instead of
    answering 403. *)
Theorem restrictTo_edges (roles roles' : list string) (req : request)
    (u : user) :
  ((forall r, In r roles <-> In r roles') ->
     AuthController.restrictTo roles (attach_user u req)
     = AuthController.restrictTo roles' (attach_user u req))
  /\ AuthController.restrictTo [] (attach_user u req)
     = inr (attach_user u req, Next (Some forbidden))
  /\ (req_user req = None ->
      exists e, AuthController.restrictTo roles req = inl e
                /\ exn_name e = "TypeError").
Proof.
  unfold AuthController.restrictTo. cbn [attach_user req_user].
  repeat split.
  - intros Hsame.
    assert (He : existsb (String.eqb (role u)) roles
                 = existsb (String.eqb (role u)) roles').
    { apply eq_true_iff_eq. rewrite !existsb_exists.
      split; intros [r [Hr Hm]]; exists r; split; try exact Hm;
        now apply Hsame. }
    now rewrite He.
  - intros ->. eexists. split; reflexivity.
Qed.

(** X4: a request the access guard lets through carries a user of the
    collection (in the default projection), so the role gate behind it
    never throws: it decides by that user's role. *)
Theorem protect_then_restrictTo {env : Env} {signer : Signer}
    (roles : list string) (req req' : request) (w : world) :
  fst (catchAsync AuthController.protect req w) = (req', Next None) ->
  exists stored,
    In stored (users w)
    /\ req_user req' = Some (User.project stored)
    /\ AuthController.restrictTo roles req'
       = inr (req', if existsb (String.eqb (role stored)) roles
                    then Next None else Next (Some forbidden)).
Proof.
  rewrite protect_run. cbn [fst]. unfold guard.
  destruct (bearer _) as [[|c t]|]; try discriminate.
  destruct (jwt_verify _ _ _) as [e|d]; [discriminate|].
  destruct (find _ _) as [u|] eqn:Hf; [|discriminate].
  destruct (User.changedPasswordAfter u (iat d)); [discriminate|].
  intros [= <-]. exists u. apply find_some in Hf as [Hin _].
  split; [exact Hin|]. split; [reflexivity|].
  unfold AuthController.restrictTo. cbn [attach_user req_user User.project role].
  now destruct (existsb _ roles).
Qed.

Lemma protect_then_restrictTo_witness :
  let token := @jwt_sign Fixture.signer "u1" "top-secret" 4 5 in
  let req := with_authorization ("Bearer " ++ token)
               (mkRequest None Fixture.blank "" "https" "natours.io" None) in
  exists stored,
    In stored (users Fixture.world0)
    /\ req_user (attach_user (User.project Fixture.jonas) req)
       = Some (User.project stored)
    /\ AuthController.restrictTo ["admin"]
         (attach_user (User.project Fixture.jonas) req)
       = inr (attach_user (User.project Fixture.jonas) req,
              if existsb (String.eqb (role stored)) ["admin"]
              then Next None else Next (Some forbidden)).
Proof.
  cbv zeta.
  apply (@protect_then_restrictTo Fixture.env Fixture.signer ["admin"]
           (with_authorization
              ("Bearer " ++ @jwt_sign Fixture.signer "u1" "top-secret" 4 5)
              (mkRequest None Fixture.blank "" "https" "natours.io" None))
           _ Fixture.world0).
  vm_compute. reflexivity.
Defined.

(** ** The two revisions of login *)

(** X5: the login of the earlier revision and the login of
    [authController.js] leave the same world, fail with the same error and
    issue the same token; the only difference is that the later one also
    sends the user document. *)
Theorem login_revisions_agree {env : Env} {signer : Signer} {hasher : Hasher}
    (req : request) (w : world) :
  let earlier := catchAsync Part000.login req w in
  let later := catchAsync AuthController.login req w in
  snd earlier = snd later
  /\ fst (fst earlier) = fst (fst later)
  /\ snd (fst earlier) = without_user (snd (fst later)).
Proof.
  cbv zeta.
  unfold Part000.login, AuthController.login, AuthController.createSendToken,
    Part000.signToken, AuthController.signToken.
  run_handler.
  destruct (falsy _ || falsy _); [now repeat split|].
  destruct (find _ _) as [u|]; [|now repeat split].
  destruct (body_password (req_body req)) as [p|]; [|now repeat split].
  destruct (password u) as [h|]; [|now repeat split].
  cbn beta iota. destruct (bcrypt_compare p h); now repeat split.
Qed.

(** ** Across the operations *)

Ltac open_handlers :=
  unfold perform, AuthController.signup, AuthController.login,
    AuthController.forgotPassword, AuthController.resetPassword,
    AuthController.updatePassword, AuthController.createSendToken,
    AuthController.signToken, User.createPasswordResetToken, User.save,
    User.create, deliver;
  run_handler.

(** One case analysis on an innermost scrutinee of the goal. *)
Ltac case_step :=
  match goal with
  | |- context [match ?x with _ => _ end] =>
      lazymatch x with
      | context [match _ with _ => _ end] => fail
      | _ => destruct x eqn:?
      end
  end.



Lemma mails_record (e : event) (us : list user) (w : world) :
  mails (record_event e us w)
  = (mails w ++ (if is_mail e then [e] else []))%list.
Proof.
  unfold mails, record_event. cbn [journal].
  rewrite filter_app. cbn [filter]. now destruct (is_mail e).
Qed.

(** X6: only [forgotPassword] sends mail, and it sends at most one per
    request: every other operation leaves the mails of the world as they
    were. *)
Theorem only_forgotPassword_mails
    {env : Env} {signer : Signer} {hasher : Hasher} {mailer : Mailer}
    {schema : Schema}
    (op : operation) (req : request) (w : world) :
  let w' := snd (perform op req w) in
  (op <> ForgotPassword -> mails w' = mails w)
  /\ (mails w' = mails w \/ exists m, mails w' = (mails w ++ [Mailed m])%list).
Proof.
  cbv zeta.
  assert (Hsame : op <> ForgotPassword -> mails (snd (perform op req w)) = mails w).
  { intros Hop. destruct op; cbn [perform]; try contradiction.
    - open_handlers. repeat case_step; cbn [fst snd];
        rewrite ?mails_record, ?app_nil_r; reflexivity.
    - open_handlers. repeat case_step; cbn [fst snd]; reflexivity.
    - rewrite protect_run. reflexivity.
    - now destruct (AuthController.restrictTo roles req).
    - open_handlers. repeat case_step; cbn [fst snd];
        rewrite ?mails_record, ?app_nil_r; reflexivity.
    - open_handlers. repeat case_step; cbn [fst snd];
        rewrite ?mails_record, ?app_nil_r; reflexivity. }
  split; [exact Hsame|].
  destruct op; try (left; apply Hsame; discriminate).
  cbn [perform]. open_handlers.
  repeat case_step; cbn [fst snd];
    rewrite ?mails_record; cbn [is_mail]; rewrite ?app_nil_r;
    try (left; reflexivity); right; eexists; reflexivity.
Qed.

Lemma write_ids (d : user) (us : list user) :
  map _id (User.write d us) = map _id us.
Proof.
  unfold User.write. rewrite map_map. apply map_ext_in.
  intros s _. unfold User.has_id.
  destruct (String.eqb_spec (_id s) (_id d)) as [He|]; [|reflexivity].
  unfold User.merge. now destruct (password d).
Qed.

(** X14: no operation removes a user or changes an identifier: the
    identifiers of the collection stay as they are, in order, except that
    [signup] may add one at the end. *)
Theorem identifiers_are_kept
    {env : Env} {signer : Signer} {hasher : Hasher} {mailer : Mailer}
    {schema : Schema}
    (op : operation) (req : request) (w : world) :
  let w' := snd (perform op req w) in
  map _id (users w') = map _id (users w)
  \/ (op = Signup /\ exists newUser,
        users w' = (users w ++ [newUser])%list
        /\ _id newUser = new_id (users w)).
Proof.
  cbv zeta. destruct op; cbn [perform].
  - open_handlers. repeat case_step; cbn [fst snd];
      try (left; reflexivity).
    all: right; split; [reflexivity|]; eexists; split; reflexivity.
  - left. open_handlers. repeat case_step; reflexivity.
  - left. rewrite protect_run. reflexivity.
  - left. now destruct (AuthController.restrictTo roles req).
  - left. open_handlers. repeat case_step; cbn [fst snd record_event users];
      rewrite ?write_ids; reflexivity.
  - left. open_handlers. repeat case_step; cbn [fst snd record_event users];
      rewrite ?write_ids; reflexivity.
  - left. open_handlers. repeat case_step; cbn [fst snd record_event users];
      rewrite ?write_ids; reflexivity.
Qed.

(** X8: whenever an operation answers with a user document, the token
    beside it was signed for that very user's identifier, with the
    configured secret and expiry, at the time of the request; the status is
    201 for [signup] and 200 for every other operation. *)
Theorem response_token_is_for_its_user
    {env : Env} {signer : Signer} {hasher : Hasher} {mailer : Mailer}
    {schema : Schema}
    (op : operation) (req : request) (w : world)
    (code : Z) (st token : string) (u : user) :
  snd (fst (perform op req w)) = Respond code (TokenAndUser st token u) ->
  st = "success"
  /\ token = jwt_sign (_id u) JWT_SECRET JWT_EXPIRES_IN (clock w)
  /\ code = match op with Signup => 201 | _ => 200 end.
Proof.
  destruct op; cbn [perform].
  - open_handlers. repeat case_step; cbn [fst snd]; try discriminate.
    all: intros [= <- <- <- <-]; repeat split; reflexivity.
  - open_handlers. repeat case_step; cbn [fst snd]; try discriminate.
    all: intros [= <- <- <- <-]; repeat split; reflexivity.
  - rewrite protect_run. cbn [fst]. unfold guard.
    repeat case_step; discriminate.
  - unfold AuthController.restrictTo.
    repeat case_step; cbn [fst snd]; discriminate.
  - open_handlers. repeat case_step; cbn [fst snd]; discriminate.
  - open_handlers. repeat case_step; cbn [fst snd]; try discriminate.
    all: intros [= <- <- <- <-]; repeat split; reflexivity.
  - open_handlers. repeat case_step; cbn [fst snd]; try discriminate.
    all: intros [= <- <- <- <-]; repeat split; reflexivity.
Qed.

Lemma response_token_is_for_its_user_witness :
  let token := @jwt_sign Fixture.signer "u1" "top-secret" 4 5 in
  "success" = "success"
  /\ token = @jwt_sign Fixture.signer (_id Fixture.jonas)
               (@JWT_SECRET Fixture.env) (@JWT_EXPIRES_IN Fixture.env)
               (clock Fixture.world0)
  /\ 200 = match Login with Signup => 201 | _ => 200 end.
Proof.
  cbv zeta.
  apply (@response_token_is_for_its_user Fixture.env Fixture.signer
           Fixture.hasher Fixture.mailer_down Fixture.schema Login
           (mkRequest None
              (mkBody None (Some "jonas@example.com") (Some "pass1234")
                      None None None)
              "" "https" "natours.io" None)
           Fixture.world0 200 "success"
           (@jwt_sign Fixture.signer "u1" "top-secret" 4 5) Fixture.jonas).
  reflexivity.
Defined.

(** ** The life of a reset token *)

Lemma resetPassword_refuses
    {env : Env} {signer : Signer} {hasher : Hasher} {schema : Schema}
    (req : request) (w : world) :
  find (User.reset_matches (sha256_hex (params_token req)) (clock w)) (users w)
  = None ->
  catchAsync AuthController.resetPassword req w
  = ((req, Next (Some invalid_reset_token)), w).
Proof.
  intros Hf. unfold AuthController.resetPassword. run_handler.
  now rewrite Hf.
Qed.

Lemma resetPassword_proceeds
    {env : Env} {signer : Signer} {hasher : Hasher} {schema : Schema}
    (req : request) (w : world) (u : user) :
  find (User.reset_matches (sha256_hex (params_token req)) (clock w)) (users w)
  = Some u ->
  catchAsync AuthController.resetPassword req w
  = match validators (reset_document req u) with
    | Some err => ((req, Next (Some (Uncaught err))), w)
    | None =>
        let saved := User.presave (clock w) (reset_document req u) in
        ((req, Respond 200
                 (TokenAndUser "success"
                    (jwt_sign (_id u) JWT_SECRET JWT_EXPIRES_IN (clock w))
                    saved)),
         record_event (Saved true saved) (User.write saved (users w)) w)
    end.
Proof.
  intros Hf.
  unfold AuthController.resetPassword, AuthController.createSendToken,
    AuthController.signToken, User.save.
  run_handler. rewrite Hf. cbn [option_map].
  change (assign_passwordResetExpires None _) with (reset_document req u).
  destruct (validators (reset_document req u)) as [err|]; [reflexivity|].
  cbv zeta. f_equal. f_equal. f_equal. f_equal. f_equal.
  unfold User.presave.
  destruct (passwordModified (reset_document req u));
    unfold reset_document, User.set_password;
    now destruct (User.same_value _ _).
Qed.

(** A written document whose reset token is absent takes the digest away
    from every stored document with its identifier. *)
Lemma no_match_after_clear (hashed : string) (t : Z) (d : user)
    (us : list user) :
  passwordResetToken d = None ->
  (forall v, In v us -> passwordResetToken v = Some hashed -> _id v = _id d) ->
  find (User.reset_matches hashed t) (User.write d us) = None.
Proof.
  intros Hd Honly.
  destruct (find _ _) as [v|] eqn:Hf; [|reflexivity].
  apply find_some in Hf as [Hin Hm].
  unfold User.write in Hin. apply in_map_iff in Hin as [s [Hv Hs]].
  unfold User.reset_matches in Hm.
  destruct (User.has_id (_id d) s) eqn:Hid.
  - subst v. replace (passwordResetToken (User.merge s d)) with (@None string) in Hm
      by (unfold User.merge; now destruct (password d)).
    discriminate.
  - subst v. destruct (passwordResetToken s) as [h|] eqn:Hh; [|discriminate].
    destruct (passwordResetExpires s); [|discriminate].
    apply andb_true_iff in Hm as [He _]. apply String.eqb_eq in He. subst h.
    specialize (Honly s Hs Hh).
    unfold User.has_id in Hid. rewrite Honly, String.eqb_refl in Hid.
    discriminate.
Qed.



Lemma forgotPassword_users
    {hasher : Hasher} {mailer : Mailer} {schema : Schema}
    (req : request) (w : world) (u : user) :
  find (User.has_email (body_email (req_body req))) (users w) = Some u ->
  users (snd (catchAsync AuthController.forgotPassword req w))
  = match sendEmail (reset_mail req u (entropy w)) with
    | None => User.write (issued_document w u) (users w)
    | Some _ =>
        User.write (cleared_document w u)
                   (User.write (issued_document w u) (users w))
    end.
Proof.
  intros Hf.
  unfold AuthController.forgotPassword, User.createPasswordResetToken,
    User.save, deliver.
  run_handler. rewrite Hf. cbn [option_map].
  change (sendEmail (mkMail _ _ _))
    with (sendEmail (reset_mail req u (entropy w))).
  now destruct (sendEmail (reset_mail req u (entropy w))).
Qed.

(** X10: the token that [forgotPassword] mails is the one [resetPassword]
    takes: after a request whose mail went out, presenting the mailed token
    at any time before ten minutes have passed is not answered with the 400
    "Token is invalid or has expired". *)
Theorem forgotPassword_then_resetPassword
    {env : Env} {signer : Signer} {hasher : Hasher} {mailer : Mailer}
    {schema : Schema}
    (req : request) (w : world) (u : user) :
  find (User.has_email (body_email (req_body req))) (users w) = Some u ->
  sendEmail (reset_mail req u (entropy w)) = None ->
  forall req2 w2,
    params_token req2 = entropy w ->
    users w2 = users (snd (catchAsync AuthController.forgotPassword req w)) ->
    clock w2 < clock w + User.reset_validity ->
    snd (fst (catchAsync AuthController.resetPassword req2 w2))
    <> Next (Some invalid_reset_token).
Proof.
  intros Hf Hsent req2 w2 Hp Hu Ht.
  rewrite (forgotPassword_users req w u Hf), Hsent in Hu.
  pose proof (find_some _ _ Hf) as [Hin _].
  destruct (write_reaches (issued_document w u) (users w) u Hin eq_refl)
    as [[s [Hs Hid]] Hall].
  destruct (Hall s Hs Hid) as [Htok Hexp].
  assert (Hm : User.reset_matches (sha256_hex (params_token req2)) (clock w2) s
               = true).
  { apply reset_matches_iff. rewrite Hp. split; [exact Htok|].
    eexists. split; [exact Hexp|exact Ht]. }
  destruct (find (User.reset_matches (sha256_hex (params_token req2)) (clock w2))
                 (users w2)) as [v|] eqn:Hfind.
  - rewrite (resetPassword_proceeds req2 w2 v Hfind).
    destruct (validators _); discriminate.
  - rewrite Hu in Hfind.
    pose proof (find_none _ _ Hfind s Hs) as Hno. congruence.
Qed.

Lemma forgotPassword_then_resetPassword_witness :
  let req := mkRequest None
               (mkBody None (Some "jonas@example.com") None None None None)
               "" "https" "natours.io" None in
  let up := {| sendEmail := fun _ => None |} in
  let w1 := snd (catchAsync (@AuthController.forgotPassword Fixture.hasher up
                               Fixture.schema) req Fixture.world0) in
  snd (fst (catchAsync (@AuthController.resetPassword Fixture.env
                          Fixture.signer Fixture.hasher Fixture.schema)
              (mkRequest None
                 (mkBody None None (Some "newpass12") (Some "newpass12")
                         None None)
                 "c0ffee" "https" "natours.io" None)
              (mkWorld (users w1) 600004 "" [])))
  <> Next (Some invalid_reset_token).
Proof.
  cbv zeta.
  apply (@forgotPassword_then_resetPassword Fixture.env Fixture.signer
           Fixture.hasher {| sendEmail := fun _ => None |} Fixture.schema
           (mkRequest None
              (mkBody None (Some "jonas@example.com") None None None None)
              "" "https" "natours.io" None)
           Fixture.world0 Fixture.jonas).
  - reflexivity.
  - reflexivity.
  - reflexivity.
  - reflexivity.
  - simpl. unfold User.reset_validity. lia.
Defined.

(** X13: the compensating write works: after a [forgotPassword] whose mail
    failed, the token that was generated opens nothing.  Unless another user
    happens to hold the same digest, presenting it is answered with 400. *)
Theorem forgotPassword_failure_kills_token
    {env : Env} {signer : Signer} {hasher : Hasher} {mailer : Mailer}
    {schema : Schema}
    (req : request) (w : world) (u : user) (err : exn) :
  find (User.has_email (body_email (req_body req))) (users w) = Some u ->
  sendEmail (reset_mail req u (entropy w)) = Some err ->
  (forall v, In v (users w) ->
     passwordResetToken v = Some (sha256_hex (entropy w)) -> _id v = _id u) ->
  forall req2 w2,
    params_token req2 = entropy w ->
    users w2 = users (snd (catchAsync AuthController.forgotPassword req w)) ->
    catchAsync AuthController.resetPassword req2 w2
    = ((req2, Next (Some invalid_reset_token)), w2).
Proof.
  intros Hf Hfail Honly req2 w2 Hp Hu.
  rewrite (forgotPassword_users req w u Hf), Hfail in Hu.
  apply resetPassword_refuses. rewrite Hu, Hp.
  apply no_match_after_clear; [reflexivity|].
  intros v Hin Hh. cbn [cleared_document issued_document _id
    assign_passwordResetExpires assign_passwordResetToken User.project].
  unfold User.write in Hin. apply in_map_iff in Hin as [s [Hv Hs]].
  destruct (User.has_id (_id (issued_document w u)) s) eqn:Hid.
  - subst v. unfold User.merge. now destruct (password (issued_document w u)).
  - subst v. now apply Honly.
Qed.

Lemma forgotPassword_failure_kills_token_witness :
  let req := mkRequest None
               (mkBody None (Some "jonas@example.com") None None None None)
               "" "https" "natours.io" None in
  let w1 := snd (catchAsync (@AuthController.forgotPassword Fixture.hasher
                               Fixture.mailer_down Fixture.schema)
                            req Fixture.world0) in
  let req2 := mkRequest None
                (mkBody None None (Some "newpass12") (Some "newpass12")
                        None None)
                "c0ffee" "https" "natours.io" None in
  catchAsync (@AuthController.resetPassword Fixture.env Fixture.signer
                Fixture.hasher Fixture.schema) req2 w1
  = ((req2, Next (Some invalid_reset_token)), w1).
Proof.
  cbv zeta.
  apply (@forgotPassword_failure_kills_token Fixture.env Fixture.signer
           Fixture.hasher Fixture.mailer_down Fixture.schema
           (mkRequest None
              (mkBody None (Some "jonas@example.com") None None None None)
              "" "https" "natours.io" None)
           Fixture.world0 Fixture.jonas
           (mkExn "Error" "connect ECONNREFUSED")).
  - reflexivity.
  - reflexivity.
  - intros v Hin Hh. simpl in Hin. destruct Hin as [<-|[<-|[]]].
    + reflexivity.
    + discriminate.
  - reflexivity.
  - reflexivity.
Defined.

(** ** From login to the guard *)

Lemma find_by_id_of_member (us : list user) (u : user) :
  In u us ->
  exists v, find (User.has_id (_id u)) us = Some v /\ In v us /\ _id v = _id u.
Proof.
  intros Hin.
  destruct (find (User.has_id (_id u)) us) as [v|] eqn:Hf.
  - exists v. apply find_some in Hf as [Hv Hid].
    unfold User.has_id in Hid. apply String.eqb_eq in Hid. auto.
  - pose proof (find_none _ _ Hf u Hin) as Hno.
    unfold User.has_id in Hno. now rewrite String.eqb_refl in Hno.
Qed.

(** X12: the token a successful [login] hands out opens the access guard.
    With a signer that reads back what it writes, a request that presents
    that token as "Bearer <token>" is let through with the user of the same
    identifier attached, at any time before the configured expiry has
    elapsed, as long as no stored password-changed timestamp is later than
    the login. *)
Theorem login_then_protect
    {wire : TokenCodec.Wire} {env : Env} {hasher : Hasher}
    (req : request) (w : world) (code : Z) (st token : string) (u : user) :
  TokenCodec.lawful wire ->
  snd (fst (catchAsync (@AuthController.login env TokenCodec.signer hasher)
                       req w))
  = Respond code (TokenAndUser st token u) ->
  presentable token = true ->
  (forall v changed, In v (users w) -> passwordChangedAt v = Some changed ->
                     changed <= clock w) ->
  forall req2 w2,
    users w2 = users w ->
    clock w2 < clock w + JWT_EXPIRES_IN ->
    exists v,
      In v (users w) /\ _id v = _id u
      /\ fst (catchAsync (@AuthController.protect env TokenCodec.signer)
                (with_authorization ("Bearer " ++ token) req2) w2)
         = (attach_user (User.project v)
              (with_authorization ("Bearer " ++ token) req2), Next None).
Proof.
  intros Hlaw Hlogin Hpres Hpast req2 w2 Hu Ht.
  assert (Hissued : token = TokenCodec.issue (_id u) JWT_SECRET JWT_EXPIRES_IN
                                             (clock w)
                    /\ In u (users w)).
  { revert Hlogin.
    unfold AuthController.login, AuthController.createSendToken,
      AuthController.signToken.
    run_handler.
    destruct (falsy _ || falsy _); [discriminate|].
    destruct (find _ _) as [x|] eqn:Hf; [|discriminate].
    destruct (body_password (req_body req)); [|discriminate].
    destruct (password x); [|discriminate].
    cbn beta iota. destruct (bcrypt_compare _ _); [|discriminate].
    cbn [fst snd negb]. intros [= _ _ <- <-].
    apply find_some in Hf as [Hin _]. now split. }
  destruct Hissued as [Htoken Hin].
  destruct (find_by_id_of_member _ _ Hin) as [v [Hfind [Hv Hid]]].
  exists v. split; [exact Hv|]. split; [exact Hid|].
  rewrite protect_run. cbn [fst]. unfold guard.
  cbn [with_authorization headers_authorization].
  rewrite (bearer_presentable _ Hpres).
  assert (Hne : exists c rest, token = String c rest).
  { unfold presentable in Hpres. destruct token; [discriminate|eauto]. }
  destruct Hne as [c [rest Hc]]. rewrite Hc. rewrite <- Hc.
  assert (Hverify : @jwt_verify TokenCodec.signer token JWT_SECRET (clock w2)
                    = inr (mkDecoded (_id u) (clock w))).
  { rewrite Htoken. cbn [jwt_verify TokenCodec.signer].
    unfold TokenCodec.verify, TokenCodec.issue. rewrite Hlaw.
    cbn [TokenCodec.signed_claims TokenCodec.signature TokenCodec.userId
         TokenCodec.issuedAt TokenCodec.expiresAt].
    rewrite String.eqb_refl. cbn [negb].
    destruct (Z.leb_spec (clock w + JWT_EXPIRES_IN) (clock w2));
      [lia|reflexivity]. }
  rewrite Hverify. cbn [id iat]. rewrite Hu, Hfind.
  destruct (User.changedPasswordAfter v (clock w)) eqn:Hch; [|reflexivity].
  apply changedPasswordAfter_iff in Hch as [changed [Hs Hlt]].
  specialize (Hpast v changed Hv Hs). lia.
Qed.

Lemma login_then_protect_witness :
  let token := @jwt_sign Fixture.signer "u1" "top-secret" 4 5 in
  let req2 := mkRequest None Fixture.blank "" "https" "natours.io" None in
  exists v,
    In v (users Fixture.world0) /\ _id v = _id Fixture.jonas
    /\ fst (catchAsync (@AuthController.protect Fixture.env Fixture.signer)
              (with_authorization ("Bearer " ++ token) req2)
              (mkWorld (users Fixture.world0) 8 "" []))
       = (attach_user (User.project v)
            (with_authorization ("Bearer " ++ token) req2), Next None).
Proof.
  cbv zeta.
  apply (@login_then_protect Fixture.wire Fixture.env Fixture.hasher
           (mkRequest None
              (mkBody None (Some "jonas@example.com") (Some "pass1234")
                      None None None)
              "" "https" "natours.io" None)
           Fixture.world0 200 "success"
           (@jwt_sign Fixture.signer "u1" "top-secret" 4 5) Fixture.jonas).
  - exact read_write_token.
  - reflexivity.
  - reflexivity.
  - intros v changed Hin Hc. simpl in Hin. destruct Hin as [<-|[<-|[]]].
    + discriminate.
    + injection Hc as <-. simpl. lia.
  - reflexivity.
  - simpl. lia.
Defined.

(** ** Signing up *)

(** X15: [signup] hands the posted role to the user model: a user it
    answers with has the role, the name and the email of the request body,
    and is the last document of the collection.  The earlier revision did
    not read the role: it behaves as the later one on the request without
    it. *)
Theorem signup_takes_the_posted_role
    {env : Env} {signer : Signer} {hasher : Hasher} {schema : Schema}
    (req : request) (w : world) :
  (forall code st token u,
     snd (fst (catchAsync AuthController.signup req w))
     = Respond code (TokenAndUser st token u) ->
     body_name (req_body req) = Some (name u)
     /\ body_email (req_body req) = Some (email u)
     /\ (forall r, body_role (req_body req) = Some r -> role u = r)
     /\ users (snd (catchAsync AuthController.signup req w))
        = (users w ++ [u])%list)
  /\ (let old := catchAsync Part000.signup req w in
      let new := catchAsync AuthController.signup (without_role req) w in
      snd old = snd new /\ snd (fst old) = snd (fst new)).
Proof.
  split.
  - intros code st token u.
    unfold AuthController.signup, AuthController.createSendToken,
      AuthController.signToken, User.create.
    run_handler.
    destruct (body_name (req_body req)) as [n|]; [|discriminate].
    destruct (body_email (req_body req)) as [e|]; [|discriminate].
    destruct (validators _) as [err|]; [discriminate|].
    cbn [fst snd]. intros [= _ _ _ <-].
    cbn [name email role record_event users].
    repeat split. now intros r ->.
  - cbv zeta.
    unfold Part000.signup, AuthController.signup,
      AuthController.createSendToken, Part000.signToken,
      AuthController.signToken, without_role.
    cbn [req_body body_name body_email body_password body_passwordConfirm
         body_role].
    run_handler.
    now destruct (User.create _ _ _ _ _ w) as [[err|d] w'].
Qed.
